(** * Verification of [infra/components.py]

    A shallow embedding of the [TgiLlm] construct, of its [Props] / [HFVars]
    configuration schema and of [generate_unique_id], followed by the
    properties of the resource-graph builder.

    Python objects become records, attributes that are assigned by a build
    step become [option] fields (reading one that is not yet there raises
    [AttributeError]), and every call runs in the monad [Py]: a state monad
    over the interpreter's [World] (the random source and the construct tree)
    that can raise a Python exception. *)

From Stdlib Require Import ZArith NArith List Ascii String Lia.
From stdpp Require Import base strings gmap list.

Local Open Scope Z_scope.

(** ** Exceptions and the world *)

(** A location inside a configuration, as Pydantic reports it:
    [["environment_vars"; "HF_MODEL_ID"]]. *)
Definition loc := list string.

Inductive exn :=
| ValidationError (missing : list loc)   (* pydantic: one entry per missing field *)
| AttributeError (cls attr : string)     (* 'cls' object has no attribute 'attr' *)
| IndexError                             (* random.choice on an empty sequence *)
| ConstructError (path : list string).   (* constructs: id already used in its scope *)

(** The objects of [aws_cdk.aws_sagemaker_alpha] the construct instantiates.
    Only what [components.py] passes to them is recorded. *)
Module sagemaker.

(** [ContainerImage.from_dlc(repository_name, tag=...)] *)
Record ContainerImage := from_dlc { repository_name : string; tag : string }.

(** [ModelData.from_asset(path)] *)
Record ModelData := from_asset { asset_path : string }.

End sagemaker.

(** [class HFVars(BaseModel)]: a single declared field. *)
Record HFVars := { HF_MODEL_ID : string }.

(** A value stored in a Python dict literal of the source: the production
    variant mixes strings and integers. *)
Inductive pyval :=
| PStr (s : string)
| PInt (z : Z).

Module Cdk.

(** [ContainerDefinition(image=..., environment=...)]; [model_data] is
    assigned afterwards by [_set_container]. *)
Record ContainerDefinition := {
  image : sagemaker.ContainerImage;
  environment : HFVars;
  model_data : option sagemaker.ModelData;
}.

(** [Model(scope, id, model_name=..., containers=[...])] *)
Record Model := {
  model_name : string;
  containers : list ContainerDefinition;
}.

(** [EndpointConfig(scope, id, endpoint_config_name=...,
    instance_production_variants=[{...}])] *)
Record EndpointConfig := {
  endpoint_config_name : string;
  instance_production_variants : list (gmap string pyval);
}.

(** [Endpoint(scope, id, endpoint_name=..., endpoint_config=...)] *)
Record Endpoint := {
  endpoint_name : string;
  endpoint_config : EndpointConfig;
}.

(** What sits at a path of the construct tree. *)
Inductive node :=
| NConstruct                              (* a plain [Construct], here [TgiLlm] itself *)
| NModel (m : Model)
| NEndpointConfig (c : EndpointConfig)
| NEndpoint (e : Endpoint)
| NOutput (value : string).               (* [CfnOutput(scope, id, value=...)] *)

End Cdk.

(** The part of the interpreter state the module touches.

    - [entropy] and [rand_pos]: the random source, as the sequence of raw
      numbers it is going to deliver and how many have been taken
      ([os.urandom] for [uuid4], the [random] module for [random.choice]);
    - [tree]: the construct tree, as the list of registered paths with the
      node at each, oldest first. *)
Record World := {
  entropy : nat -> N;
  rand_pos : nat;
  tree : list (list string * Cdk.node);
}.

Definition Py (A : Type) : Type := World -> (exn + A) * World.

Definition ret {A} (a : A) : Py A := fun w => (inr a, w).

Definition raise {A} (e : exn) : Py A := fun w => (inl e, w).

Definition bind {A B} (c : Py A) (k : A -> Py B) : Py B :=
  fun w =>
    match c w with
    | (inr a, w') => k a w'
    | (inl e, w') => (inl e, w')
    end.

Notation "'let*' x ':=' c 'in' k" := (bind c (fun x => k))
  (at level 10, x name, c at level 100, k at level 200).

(** Run the same computation [n] times and collect the results in order:
    the generator expression [(e for _ in range(n))] consumed by [join]. *)
Fixpoint replicateM {A} (n : nat) (c : Py A) : Py (list A) :=
  match n with
  | O => ret []
  | S n' => let* a := c in let* l := replicateM n' c in ret (a :: l)
  end.

(** ** The random source *)

(** The world after [k] more raw numbers have been taken. *)
Definition advance (k : nat) (w : World) : World :=
  {| entropy := entropy w; rand_pos := (k + rand_pos w)%nat; tree := tree w |}.

(** Take the next raw number. *)
Definition draw : Py N :=
  fun w => (inr (entropy w (rand_pos w)), advance 1 w).

(** [random.choice(seq)] is [seq[randbelow(len(seq))]] and raises
    [IndexError] on an empty sequence. [randbelow(n)] is some number below
    [n]; reducing an arbitrary raw number modulo [n] reaches exactly those.
    One entry of the stream stands for one result of [randbelow]; how many
    bits the interpreter's generator spends on it is not modelled. *)
Definition random_choice (seq : string) : Py ascii :=
  match String.length seq with
  | O => raise IndexError
  | len =>
      let* r := draw in
      match String.get (N.to_nat (r mod N.of_nat len)) seq with
      | Some c => ret c
      | None => raise IndexError
      end
  end.

(** *** [uuid4] and its string form *)

Definition hex_digit (d : N) : ascii :=
  match d with
  | 0 => "0" | 1 => "1" | 2 => "2" | 3 => "3" | 4 => "4" | 5 => "5"
  | 6 => "6" | 7 => "7" | 8 => "8" | 9 => "9" | 10 => "a" | 11 => "b"
  | 12 => "c" | 13 => "d" | 14 => "e" | _ => "f"
  end%N%char.

(** ['%0kx' % z] for [z < 16^k]: [k] lower-case hex digits, most
    significant first. *)
Fixpoint hex_fixed (k : nat) (z : N) : list ascii :=
  match k with
  | O => []
  | S k' => hex_fixed k' (z / 16)%N ++ [hex_digit (z mod 16)%N]
  end.

(** [UUID(bytes=..., version=4)]: 128 random bits with the variant bits set
    to RFC 4122 and the version nibble set to 4. *)
Definition uuid4_int (raw : N) : N :=
  let i := (raw mod 2 ^ 128)%N in
  let i := N.ldiff i (N.shiftl 0xc000 48) in
  let i := N.lor i (N.shiftl 0x8000 48) in
  let i := N.ldiff i (N.shiftl 0xf000 64) in
  N.lor i (N.shiftl 4 76).

(** [str(UUID)]: the 32 hex digits grouped 8-4-4-4-12. *)
Definition UUID_str (i : N) : string :=
  let hex := hex_fixed 32 i in
  let dash := ["-"%char] in
  string_of_list_ascii
    (take 8 hex ++ dash ++ take 4 (drop 8 hex) ++ dash
     ++ take 4 (drop 12 hex) ++ dash ++ take 4 (drop 16 hex) ++ dash
     ++ drop 20 hex).

Definition uuid4 : Py N := let* raw := draw in ret (uuid4_int raw).

(** ** [generate_unique_id]

<<
def generate_unique_id(chars=10):
    characters = str(uuid4())
    return "".join(random.choice(characters) for _ in range(chars))
>>
    [range(chars)] is empty for a negative [chars]. *)
Definition generate_unique_id (chars : Z) : Py string :=
  let* u := uuid4 in
  let characters := UUID_str u in
  let* picked := replicateM (Z.to_nat chars) (random_choice characters) in
  ret (string_of_list_ascii picked).

(** The call without argument. *)
Definition generate_unique_id_default : Py string := generate_unique_id 10.

(** ** The configuration schema

    A configuration, as a caller writes it: every field may be left out, and
    [environment_vars] is a mapping that may hold any keys. The values that
    are given have the declared types; a value of another type, which
    Pydantic turns down at that field, is not a configuration here. *)
Record Config := {
  cfg_instance_type : option string;
  cfg_environment_vars : option (gmap string string);
  cfg_s3_model_path : option string;
  cfg_tag : option string;
  cfg_start_up_health_check_seconds : option Z;
  cfg_repo_name : option string;
}.

(** [class Props(BaseModel)], a validated instance. *)
Record Props := {
  instance_type : string;
  environment_vars : HFVars;
  s3_model_path : option string;
  tag : string;
  start_up_health_check_seconds : Z;
  repo_name : string;
}.

(** Validation of the mapping given for [environment_vars]: [HF_MODEL_ID] is
    required; the model keeps its declared field and nothing else (Pydantic
    ignores undeclared keys). *)
Definition HFVars_validate (m : gmap string string) : list loc + HFVars :=
  match m !! "HF_MODEL_ID" with
  | Some v => inr {| HF_MODEL_ID := v |}
  | None => inl [["HF_MODEL_ID"]]
  end.

(** The fields of an [HFVars] instance as a mapping. *)
Definition HFVars_dict (h : HFVars) : gmap string string :=
  {[ "HF_MODEL_ID" := HF_MODEL_ID h ]}.

(** A field with [default=...]. *)
Definition with_default {A} (default : A) (given : option A) : A :=
  match given with
  | Some a => a
  | None => default
  end.

(** A field without default. *)
Definition required {A} (name : string) (given : option A) : list loc + A :=
  match given with
  | Some a => inr a
  | None => inl [[name]]
  end.

Definition errors_of {A} (r : list loc + A) : list loc :=
  match r with
  | inl es => es
  | inr _ => []
  end.

(** Validation of a configuration against [Props], field by field in the
    order of declaration; the errors of all fields are collected. The
    declared fields carry no constraint besides their type and presence. *)
Definition Props_validate (c : Config) : list loc + Props :=
  let env :=
    match required "environment_vars" (cfg_environment_vars c) with
    | inr m =>
        match HFVars_validate m with
        | inr h => inr h
        | inl es => inl (map (cons "environment_vars") es)
        end
    | inl es => inl es
    end in
  let tg := required "tag" (cfg_tag c) in
  match env, tg with
  | inr h, inr t =>
      inr {| instance_type := with_default "ml.g5.2xlarge" (cfg_instance_type c);
             environment_vars := h;
             s3_model_path := cfg_s3_model_path c;
             tag := t;
             start_up_health_check_seconds :=
               with_default 300 (cfg_start_up_health_check_seconds c);
             repo_name :=
               with_default "huggingface-pytorch-inference" (cfg_repo_name c) |}
  | _, _ => inl (errors_of env ++ errors_of tg)
  end.

(** The constructor [Props], called on the fields of a configuration. *)
Definition Props_new (c : Config) : Py Props :=
  match Props_validate c with
  | inr p => ret p
  | inl es => raise (ValidationError es)
  end.

(** The value of an attribute of a [Props] instance. *)
Inductive attr :=
| AStr (s : string)
| AInt (z : Z)
| AOptStr (o : option string)
| AVars (h : HFVars).

(** [props.<name>]: the declared fields are the only attributes of the
    instance. *)
Definition Props_getattr (p : Props) (name : string) : Py attr :=
  if String.eqb name "instance_type" then ret (AStr (instance_type p))
  else if String.eqb name "environment_vars" then ret (AVars (environment_vars p))
  else if String.eqb name "s3_model_path" then ret (AOptStr (s3_model_path p))
  else if String.eqb name "tag" then ret (AStr (tag p))
  else if String.eqb name "start_up_health_check_seconds"
       then ret (AInt (start_up_health_check_seconds p))
  else if String.eqb name "repo_name" then ret (AStr (repo_name p))
  else raise (AttributeError "Props" name).

(** ** The construct tree *)

Definition paths (w : World) : list (list string) := map fst (tree w).

(** The world with one more construct in the tree. *)
Definition add_node (p : list string) (n : Cdk.node) (w : World) : World :=
  {| entropy := entropy w; rand_pos := rand_pos w; tree := tree w ++ [(p, n)] |}.

(** Creating a construct with identifier [id] under [scope] adds it to the
    tree; an identifier can be used once per scope. *)
Definition register (scope : list string) (id : string) (n : Cdk.node)
  : Py (list string) :=
  fun w =>
    let p := scope ++ [id] in
    if bool_decide (p ∈ paths w) then (inl (ConstructError p), w)
    else (inr p, add_node p n w).

Definition Model_new (scope : list string) (id : string)
    (model_name : string) (containers : list Cdk.ContainerDefinition)
  : Py Cdk.Model :=
  let m := {| Cdk.model_name := model_name; Cdk.containers := containers |} in
  let* _p := register scope id (Cdk.NModel m) in ret m.

Definition EndpointConfig_new (scope : list string) (id : string)
    (endpoint_config_name : string) (variants : list (gmap string pyval))
  : Py Cdk.EndpointConfig :=
  let c := {| Cdk.endpoint_config_name := endpoint_config_name;
              Cdk.instance_production_variants := variants |} in
  let* _p := register scope id (Cdk.NEndpointConfig c) in ret c.

Definition Endpoint_new (scope : list string) (id : string)
    (endpoint_name : string) (endpoint_config : Cdk.EndpointConfig)
  : Py Cdk.Endpoint :=
  let e := {| Cdk.endpoint_name := endpoint_name;
              Cdk.endpoint_config := endpoint_config |} in
  let* _p := register scope id (Cdk.NEndpoint e) in ret e.

Definition CfnOutput (scope : list string) (id : string) (value : string)
  : Py unit :=
  let* _p := register scope id (Cdk.NOutput value) in ret tt.

(** ** [class TgiLlm(Construct)] *)

Module TgiLlm.

(** An instance. [path] is its place in the construct tree; the next five
    attributes are assigned by [__init__]; the last four are assigned by
    the build steps and are absent until then. *)
Record t := {
  path : list string;
  props : Props;
  unique_id : string;
  model_name : string;
  endpoint_name : string;
  endpoint_config_name : string;
  container_definition : option Cdk.ContainerDefinition;
  model : option Cdk.Model;
  endpoint_config : option Cdk.EndpointConfig;
  endpoint : option Cdk.Endpoint;
}.

(** [self.<name>] for an attribute a build step assigns. *)
Definition getattr {A} (name : string) (field : option A) : Py A :=
  match field with
  | Some a => ret a
  | None => raise (AttributeError "TgiLlm" name)
  end.

(** [self.container_definition = cd] and its siblings. *)
Definition set_container_definition (cd : Cdk.ContainerDefinition) (self : t) : t :=
  {| path := path self; props := props self; unique_id := unique_id self;
     model_name := model_name self; endpoint_name := endpoint_name self;
     endpoint_config_name := endpoint_config_name self;
     container_definition := Some cd; model := model self;
     endpoint_config := endpoint_config self; endpoint := endpoint self |}.

Definition set_model (m : Cdk.Model) (self : t) : t :=
  {| path := path self; props := props self; unique_id := unique_id self;
     model_name := model_name self; endpoint_name := endpoint_name self;
     endpoint_config_name := endpoint_config_name self;
     container_definition := container_definition self; model := Some m;
     endpoint_config := endpoint_config self; endpoint := endpoint self |}.

Definition set_endpoint_config (c : Cdk.EndpointConfig) (self : t) : t :=
  {| path := path self; props := props self; unique_id := unique_id self;
     model_name := model_name self; endpoint_name := endpoint_name self;
     endpoint_config_name := endpoint_config_name self;
     container_definition := container_definition self; model := model self;
     endpoint_config := Some c; endpoint := endpoint self |}.

Definition set_endpoint (e : Cdk.Endpoint) (self : t) : t :=
  {| path := path self; props := props self; unique_id := unique_id self;
     model_name := model_name self; endpoint_name := endpoint_name self;
     endpoint_config_name := endpoint_config_name self;
     container_definition := container_definition self; model := model self;
     endpoint_config := endpoint_config self; endpoint := Some e |}.

(** [self.container_definition.model_data = model_data] *)
Definition set_model_data (md : sagemaker.ModelData)
    (cd : Cdk.ContainerDefinition) : Cdk.ContainerDefinition :=
  {| Cdk.image := Cdk.image cd; Cdk.environment := Cdk.environment cd;
     Cdk.model_data := Some md |}.

Section Init.

(** What an f-string renders for an attribute value ([str] of it). *)
Variable py_str : attr -> string.

(**
<<
def __init__(self, scope, cid, props: Props):
    super().__init__(scope=scope, id=cid)
    self.props = props
    self.unique_id = generate_unique_id()
    self.model_name = f"{self.props.name}-{self.unique_id}"
    self.endpoint_name = f"{self.props.name}-endpoint-{self.unique_id}"
    self.endpoint_config_name = (
        f"{self.props.name}-config-{self.unique_id}"
    )
>>
*)
Definition __init__ (scope : list string) (cid : string) (props : Props)
  : Py t :=
  let* path := register scope cid Cdk.NConstruct in
  let* unique_id := generate_unique_id_default in
  let* name := Props_getattr props "name" in
  let model_name := py_str name +:+ "-" +:+ unique_id in
  let* name := Props_getattr props "name" in
  let endpoint_name := py_str name +:+ "-endpoint-" +:+ unique_id in
  let* name := Props_getattr props "name" in
  let endpoint_config_name := py_str name +:+ "-config-" +:+ unique_id in
  ret {| path := path; props := props; unique_id := unique_id;
         model_name := model_name; endpoint_name := endpoint_name;
         endpoint_config_name := endpoint_config_name;
         container_definition := None; model := None;
         endpoint_config := None; endpoint := None |}.

End Init.

(**
<<
def _set_container(self):
    container_image = ContainerImage.from_dlc(
        self.props.repo_name, tag=self.props.tag
    )
    self.container_definition = ContainerDefinition(
        image=container_image, environment=self.props.environment_vars
    )
    if self.props.s3_model_path:
        model_data = ModelData.from_asset(self.props.s3_model_path)
        self.container_definition.model_data = model_data
>>
    The test is on the truth value of the field: [None] and the empty
    string are both false. *)
Definition _set_container (self : t) : Py t :=
  let container_image :=
    sagemaker.from_dlc (repo_name (props self)) (tag (props self)) in
  let cd := {| Cdk.image := container_image;
               Cdk.environment := environment_vars (props self);
               Cdk.model_data := None |} in
  let self := set_container_definition cd self in
  match s3_model_path (props self) with
  | None => ret self
  | Some p =>
      if String.eqb p "" then ret self
      else
        let model_data := sagemaker.from_asset p in
        ret (set_container_definition (set_model_data model_data cd) self)
  end.

(**
<<
def _set_model(self):
    self.model = Model(
        self,
        "TgiModel",
        model_name=self.model_name,
        containers=[self.container_definition],
    )
>>
*)
Definition _set_model (self : t) : Py t :=
  let* cd := getattr "container_definition" (container_definition self) in
  let* m := Model_new (path self) "TgiModel" (model_name self) [cd] in
  ret (set_model m self).

(**
<<
def _set_config(self):
    self.endpoint_config = EndpointConfig(
        self,
        "TgiEndpointConfig",
        endpoint_config_name=self.endpoint_config_name,
        instance_production_variants=[
            {
                "modelName": self.model.model_name,
                "variantName": "primary",
                "initialVariantWeight": "1.0",
                "initialInstanceCount": 1,
                "instanceType": self.props.instance_type,
                "containerStartupHealthCheckTimeoutInSeconds": self.props.start_up_health_check_seconds,
            }
        ],
    )
>>
*)
Definition _set_config (self : t) : Py t :=
  let* m := getattr "model" (model self) in
  let variant : gmap string pyval :=
    <[ "containerStartupHealthCheckTimeoutInSeconds" :=
         PInt (start_up_health_check_seconds (props self)) ]>
    (<[ "instanceType" := PStr (instance_type (props self)) ]>
    (<[ "initialInstanceCount" := PInt 1 ]>
    (<[ "initialVariantWeight" := PStr "1.0" ]>
    (<[ "variantName" := PStr "primary" ]>
    (<[ "modelName" := PStr (Cdk.model_name m) ]> ∅))))) in
  let* c := EndpointConfig_new (path self) "TgiEndpointConfig"
              (endpoint_config_name self) [variant] in
  ret (set_endpoint_config c self).

(**
<<
def _set_endpoint(self):
    self.endpoint = Endpoint(
        self,
        "TgiEndpoint",
        endpoint_name=self.endpoint_name,
        endpoint_config=self.endpoint_config,
    )
>>
*)
Definition _set_endpoint (self : t) : Py t :=
  let* c := getattr "endpoint_config" (endpoint_config self) in
  let* e := Endpoint_new (path self) "TgiEndpoint" (endpoint_name self) c in
  ret (set_endpoint e self).

(**
<<
def run_endpoint_build(self):
    self._set_container()
    self._set_model()
    self._set_config()
    self._set_endpoint()
    CfnOutput(self, "EndpointName", value=self.endpoint.endpoint_name)
>>
    The method returns [None]; the instance it has updated is what the
    embedding hands back. *)
Definition run_endpoint_build (self : t) : Py t :=
  let* self := _set_container self in
  let* self := _set_model self in
  let* self := _set_config self in
  let* self := _set_endpoint self in
  let* e := getattr "endpoint" (endpoint self) in
  let* _u := CfnOutput (path self) "EndpointName" (Cdk.endpoint_name e) in
  ret self.

End TgiLlm.

(** ** Concrete inputs *)

(** A world with an empty construct tree and an untouched random source. *)
Definition world0 : World :=
  {| entropy := fun i => (N.of_nat i * 7919 + 104729)%N; rand_pos := 0; tree := [] |}.

(** [{tag: "2.0.1", environment_vars: {HF_MODEL_ID: "gpt2"}}] *)
Definition cfg_minimal : Config :=
  {| cfg_instance_type := None;
     cfg_environment_vars := Some {[ "HF_MODEL_ID" := "gpt2" ]};
     cfg_s3_model_path := None;
     cfg_tag := Some "2.0.1";
     cfg_start_up_health_check_seconds := None;
     cfg_repo_name := None |}.

(** The same without [tag]. *)
Definition cfg_no_tag : Config :=
  {| cfg_instance_type := None;
     cfg_environment_vars := Some {[ "HF_MODEL_ID" := "gpt2" ]};
     cfg_s3_model_path := None;
     cfg_tag := None;
     cfg_start_up_health_check_seconds := None;
     cfg_repo_name := None |}.

(** [cfg_minimal] with [start_up_health_check_seconds: 0]. *)
Definition cfg_zero_timeout : Config :=
  {| cfg_instance_type := None;
     cfg_environment_vars := Some {[ "HF_MODEL_ID" := "gpt2" ]};
     cfg_s3_model_path := None;
     cfg_tag := Some "2.0.1";
     cfg_start_up_health_check_seconds := Some 0;
     cfg_repo_name := None |}.

(** [cfg_minimal] with one more, undeclared, environment variable. *)
Definition cfg_extra_vars : Config :=
  {| cfg_instance_type := None;
     cfg_environment_vars :=
       Some (<[ "MAX_INPUT_LENGTH" := "1024" ]> {[ "HF_MODEL_ID" := "gpt2" ]});
     cfg_s3_model_path := None;
     cfg_tag := Some "2.0.1";
     cfg_start_up_health_check_seconds := None;
     cfg_repo_name := None |}.

Definition props_minimal : Props :=
  {| instance_type := "ml.g5.2xlarge";
     environment_vars := {| HF_MODEL_ID := "gpt2" |};
     s3_model_path := None;
     tag := "2.0.1";
     start_up_health_check_seconds := 300;
     repo_name := "huggingface-pytorch-inference" |}.

(** [props_minimal] with [s3_model_path] given as the empty string. *)
Definition props_empty_path : Props :=
  {| instance_type := "ml.g5.2xlarge";
     environment_vars := {| HF_MODEL_ID := "gpt2" |};
     s3_model_path := Some "";
     tag := "2.0.1";
     start_up_health_check_seconds := 300;
     repo_name := "huggingface-pytorch-inference" |}.

(** An instance before any build step, with names of the shape [__init__]
    gives them. *)
Definition instance_of (p : Props) : TgiLlm.t :=
  {| TgiLlm.path := ["Stack"; "Llm"];
     TgiLlm.props := p;
     TgiLlm.unique_id := "4f0a-b81c9";
     TgiLlm.model_name := "llm-4f0a-b81c9";
     TgiLlm.endpoint_name := "llm-endpoint-4f0a-b81c9";
     TgiLlm.endpoint_config_name := "llm-config-4f0a-b81c9";
     TgiLlm.container_definition := None;
     TgiLlm.model := None;
     TgiLlm.endpoint_config := None;
     TgiLlm.endpoint := None |}.

(** The same instance once a model has been attached. *)
Definition instance_with_model (p : Props) : TgiLlm.t :=
  TgiLlm.set_model
    {| Cdk.model_name := "llm-4f0a-b81c9"; Cdk.containers := [] |}
    (instance_of p).

(** ** Vocabulary of the statements about the tree *)

(** The characters a UUID is written with. *)
Definition hex_alphabet : string := "0123456789abcdef-".

(** [w'] is [w] with at most [k] more constructs, all of them children of
    [p]; the random source is the same, and paths stay unique if they were. *)
Definition extends_under (p : list string) (k : nat) (w w' : World) : Prop :=
  entropy w' = entropy w
  /\ rand_pos w' = rand_pos w
  /\ (exists added,
        tree w' = tree w ++ added
        /\ (length added <= k)%nat
        /\ Forall (fun x => exists id, fst x = p ++ [id]) added)
  /\ (NoDup (paths w) -> NoDup (paths w')).

(** A configuration that sets every field. *)
Definition cfg_custom : Config :=
  {| cfg_instance_type := Some "ml.g5.12xlarge";
     cfg_environment_vars := Some {[ "HF_MODEL_ID" := "gpt2" ]};
     cfg_s3_model_path := Some "s3://models/gpt2-tuned";
     cfg_tag := Some "2.0.1";
     cfg_start_up_health_check_seconds := Some 900;
     cfg_repo_name := Some "huggingface-pytorch-tgi-inference" |}.

(** A configuration with neither [tag] nor [environment_vars]. *)
Definition cfg_empty : Config :=
  {| cfg_instance_type := None;
     cfg_environment_vars := None;
     cfg_s3_model_path := None;
     cfg_tag := None;
     cfg_start_up_health_check_seconds := None;
     cfg_repo_name := None |}.

(** [world0] where the identifier [TgiEndpoint] is already taken under the
    instance of [instance_of]. *)
Definition world_endpoint_taken : World :=
  add_node (["Stack"; "Llm"] ++ ["TgiEndpoint"]) Cdk.NConstruct world0.

(** * Properties *)

(** ** The monad *)

Lemma bind_ret_l {A B} (a : A) (k : A -> Py B) (w : World) :
  bind (ret a) k w = k a w.
Proof. reflexivity. Qed.

Lemma bind_raise {A B} (e : exn) (k : A -> Py B) (w : World) :
  bind (raise e) k w = (inl e, w).
Proof. reflexivity. Qed.

Lemma bind_returns {A B} (c : Py A) (k : A -> Py B) (w w' : World) (a : A) :
  c w = (inr a, w') -> bind c k w = k a w'.
Proof. intros H. unfold bind. now rewrite H. Qed.

Lemma bind_raises {A B} (c : Py A) (k : A -> Py B) (w w' : World) (e : exn) :
  c w = (inl e, w') -> bind c k w = (inl e, w').
Proof. intros H. unfold bind. now rewrite H. Qed.

(** ** Strings *)

Lemma length_string_of_list (l : list ascii) :
  String.length (string_of_list_ascii l) = length l.
Proof. induction l as [|c l IH]; simpl; congruence. Qed.

Lemma get_some_lt (s : string) (i : nat) :
  (i < String.length s)%nat -> exists c, String.get i s = Some c.
Proof.
  revert i. induction s as [|a s IH]; intros i Hi; simpl in *.
  - lia.
  - destruct i as [|i]; [now exists a|]. apply IH. lia.
Qed.

Lemma get_some_in (s : string) (i : nat) (c : ascii) :
  String.get i s = Some c -> In c (list_ascii_of_string s).
Proof.
  revert i. induction s as [|a s IH]; intros i Hg; simpl in *.
  - discriminate.
  - destruct i as [|i].
    + left. congruence.
    + right. now apply (IH i).
Qed.

(** ** The identity suffix *)

Lemma hex_fixed_length (k : nat) (z : N) : length (hex_fixed k z) = k.
Proof.
  revert z. induction k as [|k IH]; intros z; simpl; [reflexivity|].
  rewrite length_app, IH. simpl. lia.
Qed.

(** The textual form of a UUID always has 36 characters. *)
Lemma UUID_str_length (i : N) : String.length (UUID_str i) = 36%nat.
Proof.
  unfold UUID_str. rewrite length_string_of_list.
  repeat rewrite ?length_app, ?length_take, ?length_drop, ?hex_fixed_length.
  reflexivity.
Qed.

Lemma advance_0 (w : World) : advance 0 w = w.
Proof. now destruct w. Qed.

Lemma advance_advance (j k : nat) (w : World) :
  advance j (advance k w) = advance (j + k) w.
Proof. unfold advance; simpl. f_equal. lia. Qed.

Lemma draw_spec (w : World) :
  draw w = (inr (entropy w (rand_pos w)), advance 1 w).
Proof. reflexivity. Qed.

(** On a non-empty sequence [random.choice] returns one of its elements and
    takes one number from the random source. *)
Lemma random_choice_spec (seq : string) (w : World) :
  String.length seq <> O ->
  exists c, random_choice seq w = (inr c, advance 1 w)
            /\ In c (list_ascii_of_string seq).
Proof.
  intros Hne. unfold random_choice.
  destruct (String.length seq) as [|n] eqn:Hlen; [congruence|].
  rewrite (bind_returns _ _ _ _ _ (draw_spec w)).
  destruct (get_some_lt seq (N.to_nat (entropy w (rand_pos w) mod N.of_nat (S n))))
    as [c Hc].
  { rewrite Hlen.
    pose proof (N.mod_upper_bound (entropy w (rand_pos w)) (N.of_nat (S n))).
    lia. }
  rewrite Hc. exists c. split; [reflexivity|].
  eapply get_some_in; eauto.
Qed.

Lemma replicateM_random_choice (seq : string) (n : nat) (w : World) :
  String.length seq <> O ->
  exists l, replicateM n (random_choice seq) w = (inr l, advance n w)
            /\ length l = n
            /\ Forall (fun c => In c (list_ascii_of_string seq)) l.
Proof.
  intros Hne. revert w. induction n as [|n IH]; intros w.
  - exists []. simpl. rewrite advance_0. unfold ret. auto.
  - destruct (random_choice_spec seq w Hne) as (c & Hc & Hin).
    destruct (IH (advance 1 w)) as (l & Hl & Hlen & Hall).
    exists (c :: l). simpl.
    rewrite (bind_returns _ _ _ _ _ Hc), (bind_returns _ _ _ _ _ Hl).
    rewrite advance_advance, Nat.add_1_r.
    unfold ret. repeat split; simpl; auto.
Qed.

(** What [generate_unique_id] returns, for any argument: the characters
    picked from the textual form of the UUID it drew, and a random source
    advanced by one number for the UUID and one per character. *)
Lemma generate_unique_id_spec (chars : Z) (w : World) :
  exists l,
    generate_unique_id chars w
    = (inr (string_of_list_ascii l), advance (S (Z.to_nat chars)) w)
    /\ length l = Z.to_nat chars
    /\ Forall (fun c => In c (list_ascii_of_string
                               (UUID_str (uuid4_int (entropy w (rand_pos w)))))) l.
Proof.
  set (u := uuid4_int (entropy w (rand_pos w))).
  assert (Hne : String.length (UUID_str u) <> O)
    by (rewrite UUID_str_length; discriminate).
  destruct (replicateM_random_choice (UUID_str u) (Z.to_nat chars) (advance 1 w) Hne)
    as (l & Hl & Hlen & Hall).
  exists l. split; [|auto].
  unfold generate_unique_id, uuid4.
  unfold bind at 1. unfold bind at 1. rewrite draw_spec. unfold ret at 1.
  fold u. rewrite (bind_returns _ _ _ _ _ Hl).
  rewrite advance_advance, Nat.add_1_r. reflexivity.
Qed.






(** ** Validation *)

Lemma Props_new_ok (c : Config) (p : Props) (w : World) :
  Props_validate c = inr p -> Props_new c w = (inr p, w).
Proof. intros H. unfold Props_new. now rewrite H. Qed.

Lemma Props_new_error (c : Config) (es : list loc) (w : World) :
  Props_validate c = inl es -> Props_new c w = (inl (ValidationError es), w).
Proof. intros H. unfold Props_new. now rewrite H. Qed.

(** Validation succeeds exactly when [tag] and the [HF_MODEL_ID] entry of
    [environment_vars] are there, and then fills the other fields from the
    configuration or from their defaults. *)
Lemma Props_validate_ok (c : Config) (t v : string) (m : gmap string string) :
  cfg_tag c = Some t ->
  cfg_environment_vars c = Some m ->
  m !! "HF_MODEL_ID" = Some v ->
  Props_validate c
  = inr {| instance_type := with_default "ml.g5.2xlarge" (cfg_instance_type c);
           environment_vars := {| HF_MODEL_ID := v |};
           s3_model_path := cfg_s3_model_path c;
           tag := t;
           start_up_health_check_seconds :=
             with_default 300 (cfg_start_up_health_check_seconds c);
           repo_name :=
             with_default "huggingface-pytorch-inference" (cfg_repo_name c) |}.
Proof.
  intros Ht He Hm. unfold Props_validate, HFVars_validate.
  rewrite Ht, He. simpl. rewrite Hm. reflexivity.
Qed.

Lemma Props_validate_inv (c : Config) (p : Props) :
  Props_validate c = inr p ->
  exists t m v,
    cfg_tag c = Some t /\ cfg_environment_vars c = Some m
    /\ m !! "HF_MODEL_ID" = Some v.
Proof.
  unfold Props_validate, HFVars_validate.
  destruct (cfg_environment_vars c) as [m|]; simpl.
  - destruct (m !! "HF_MODEL_ID") as [v|] eqn:Hm;
      destruct (cfg_tag c) as [t|]; simpl; try discriminate.
    intros _. now exists t, m, v.
  - destruct (cfg_tag c); discriminate.
Qed.

(** C2. A configuration without [tag], without [environment_vars], or whose
    [environment_vars] lack [HF_MODEL_ID], is rejected by the constructor of
    [Props] with a validation error that names a missing field, and the world
    is left as it was: nothing has been added to the construct tree and the
    random source is untouched. There is no [Props] instance to build from. *)
Theorem C2_missing_required_field_fails_early (c : Config) (w : World) :
  cfg_tag c = None
  \/ cfg_environment_vars c = None
  \/ (exists m, cfg_environment_vars c = Some m /\ m !! "HF_MODEL_ID" = None) ->
  (exists es, Props_new c w = (inl (ValidationError es), w) /\ es <> [])
  /\ (forall p, Props_validate c <> inr p).
Proof.
  intros Hmiss.
  assert (Hno : forall p, Props_validate c <> inr p).
  { intros p Hp. destruct (Props_validate_inv c p Hp) as (t & m & v & Ht & He & Hm).
    destruct Hmiss as [H|[H|(m' & H & Hm')]]; congruence. }
  split; [|exact Hno].
  destruct (Props_validate c) as [es|p] eqn:Hv; [|now destruct (Hno p)].
  exists es. split; [now apply Props_new_error|].
  intros ->. revert Hv. unfold Props_validate, HFVars_validate.
  destruct (cfg_environment_vars c) as [m|]; simpl.
  - destruct (m !! "HF_MODEL_ID"); destruct (cfg_tag c); simpl; discriminate.
  - destruct (cfg_tag c); simpl; discriminate.
Qed.

Lemma C2_witness :
  (cfg_tag cfg_no_tag = None
   \/ cfg_environment_vars cfg_no_tag = None
   \/ (exists m, cfg_environment_vars cfg_no_tag = Some m
                 /\ m !! "HF_MODEL_ID" = None))
  /\ ((exists es, Props_new cfg_no_tag world0 = (inl (ValidationError es), world0)
                  /\ es <> [])
      /\ (forall p, Props_validate cfg_no_tag <> inr p)).
Proof.
  split; [left; reflexivity|].
  apply (C2_missing_required_field_fails_early cfg_no_tag world0).
  left; reflexivity.
Defined.

(** C3, as the code has it. When [start_up_health_check_seconds] is left out
    the validated instance holds 300; a supplied integer is kept as it is,
    whatever its sign, and plays no part in whether validation succeeds. *)
Theorem C3_timeout_default_and_passthrough
    (c : Config) (t v : string) (m : gmap string string) :
  cfg_tag c = Some t ->
  cfg_environment_vars c = Some m ->
  m !! "HF_MODEL_ID" = Some v ->
  exists p,
    Props_validate c = inr p
    /\ (cfg_start_up_health_check_seconds c = None ->
        start_up_health_check_seconds p = 300)
    /\ (forall z, cfg_start_up_health_check_seconds c = Some z ->
                  start_up_health_check_seconds p = z).
Proof.
  intros Ht He Hm. eexists. split; [now apply (Props_validate_ok c t v m)|].
  simpl. split.
  - now intros ->.
  - now intros z ->.
Qed.

Lemma C3_witness :
  cfg_tag cfg_zero_timeout = Some "2.0.1"
  /\ cfg_environment_vars cfg_zero_timeout = Some {[ "HF_MODEL_ID" := "gpt2" ]}
  /\ ({[ "HF_MODEL_ID" := "gpt2" ]} : gmap string string) !! "HF_MODEL_ID"
     = Some "gpt2"
  /\ exists p,
      Props_validate cfg_zero_timeout = inr p
      /\ (cfg_start_up_health_check_seconds cfg_zero_timeout = None ->
          start_up_health_check_seconds p = 300)
      /\ (forall z, cfg_start_up_health_check_seconds cfg_zero_timeout = Some z ->
                    start_up_health_check_seconds p = z).
Proof.
  split; [reflexivity|]. split; [reflexivity|]. split; [reflexivity|].
  apply (C3_timeout_default_and_passthrough cfg_zero_timeout "2.0.1" "gpt2"
           {[ "HF_MODEL_ID" := "gpt2" ]}); reflexivity.
Defined.

(** C3, counterexample to the rejection of non-positive values: a
    configuration with [start_up_health_check_seconds: 0] passes validation,
    and the instance holds 0. *)
Lemma C3_counterexample_zero_timeout_accepted :
  cfg_start_up_health_check_seconds cfg_zero_timeout = Some 0
  /\ 0 <= 0
  /\ Props_new cfg_zero_timeout world0
     = (inr {| instance_type := "ml.g5.2xlarge";
               environment_vars := {| HF_MODEL_ID := "gpt2" |};
               s3_model_path := None;
               tag := "2.0.1";
               start_up_health_check_seconds := 0;
               repo_name := "huggingface-pytorch-inference" |}, world0).
Proof. split; [reflexivity|]. split; [lia|]. reflexivity. Qed.

(** ** The construct tree *)

Lemma register_fresh (scope : list string) (id : string) (n : Cdk.node) (w : World) :
  scope ++ [id] ∉ paths w ->
  register scope id n w = (inr (scope ++ [id]), add_node (scope ++ [id]) n w).
Proof. intros H. unfold register. now rewrite bool_decide_eq_false_2. Qed.

Lemma register_used (scope : list string) (id : string) (n : Cdk.node) (w : World) :
  scope ++ [id] ∈ paths w ->
  register scope id n w = (inl (ConstructError (scope ++ [id])), w).
Proof. intros H. unfold register. now rewrite bool_decide_eq_true_2. Qed.

Lemma paths_add_node (p : list string) (n : Cdk.node) (w : World) :
  paths (add_node p n w) = paths w ++ [p].
Proof. unfold paths, add_node. simpl. now rewrite map_app. Qed.

Lemma paths_advance (k : nat) (w : World) : paths (advance k w) = paths w.
Proof. reflexivity. Qed.

(** A sibling identifier stays free when a construct is added. *)
Lemma fresh_add_node (scope : list string) (id id' : string) (n : Cdk.node)
    (w : World) :
  id <> id' ->
  scope ++ [id'] ∉ paths w ->
  scope ++ [id'] ∉ paths (add_node (scope ++ [id]) n w).
Proof.
  intros Hne Hfresh. rewrite paths_add_node, elem_of_app, list_elem_of_singleton.
  intros [Hin|Heq]; [now apply Hfresh|].
  apply app_inv_head in Heq. congruence.
Qed.

(** ** The build steps *)

(** [_set_container] always succeeds and touches nothing but the instance:
    the container it attaches has the image of [repo_name] and [tag], the
    validated environment variables, and model data exactly when
    [s3_model_path] is a non-empty string. *)
Lemma set_container_spec (self : TgiLlm.t) (w : World) :
  exists cd,
    TgiLlm._set_container self w = (inr (TgiLlm.set_container_definition cd self), w)
    /\ Cdk.image cd
       = sagemaker.from_dlc (repo_name (TgiLlm.props self)) (tag (TgiLlm.props self))
    /\ Cdk.environment cd = environment_vars (TgiLlm.props self)
    /\ Cdk.model_data cd
       = match s3_model_path (TgiLlm.props self) with
         | Some p => if String.eqb p "" then None else Some (sagemaker.from_asset p)
         | None => None
         end.
Proof.
  unfold TgiLlm._set_container. simpl.
  destruct (s3_model_path (TgiLlm.props self)) as [p|]; [destruct (String.eqb p "")|];
    eexists; (split; [reflexivity|]); simpl; auto.
Qed.

Lemma set_model_spec (self : TgiLlm.t) (w : World) (cd : Cdk.ContainerDefinition) :
  TgiLlm.container_definition self = Some cd ->
  TgiLlm.path self ++ ["TgiModel"] ∉ paths w ->
  let m := {| Cdk.model_name := TgiLlm.model_name self; Cdk.containers := [cd] |} in
  TgiLlm._set_model self w
  = (inr (TgiLlm.set_model m self),
     add_node (TgiLlm.path self ++ ["TgiModel"]) (Cdk.NModel m) w).
Proof.
  intros Hcd Hfresh m. unfold TgiLlm._set_model, Model_new. rewrite Hcd. simpl.
  rewrite bind_ret_l.
  unfold bind. now rewrite (register_fresh _ _ _ _ Hfresh).
Qed.

(** The production variant [_set_config] writes. *)
Lemma set_config_spec (self : TgiLlm.t) (w : World) (m : Cdk.Model) :
  TgiLlm.model self = Some m ->
  TgiLlm.path self ++ ["TgiEndpointConfig"] ∉ paths w ->
  exists c v,
    TgiLlm._set_config self w
    = (inr (TgiLlm.set_endpoint_config c self),
       add_node (TgiLlm.path self ++ ["TgiEndpointConfig"]) (Cdk.NEndpointConfig c) w)
    /\ Cdk.endpoint_config_name c = TgiLlm.endpoint_config_name self
    /\ Cdk.instance_production_variants c = [v]
    /\ v !! "modelName" = Some (PStr (Cdk.model_name m))
    /\ v !! "variantName" = Some (PStr "primary")
    /\ v !! "initialVariantWeight" = Some (PStr "1.0")
    /\ v !! "initialInstanceCount" = Some (PInt 1)
    /\ v !! "instanceType" = Some (PStr (instance_type (TgiLlm.props self)))
    /\ v !! "containerStartupHealthCheckTimeoutInSeconds"
       = Some (PInt (start_up_health_check_seconds (TgiLlm.props self)))
    /\ size v = 6%nat.
Proof.
  intros Hm Hfresh. unfold TgiLlm._set_config, EndpointConfig_new. rewrite Hm. simpl.
  rewrite bind_ret_l. unfold bind. rewrite (register_fresh _ _ _ _ Hfresh).
  eexists _, _. split; [reflexivity|]. simpl.
  repeat split; by simplify_map_eq.
Qed.

Lemma set_endpoint_spec (self : TgiLlm.t) (w : World) (c : Cdk.EndpointConfig) :
  TgiLlm.endpoint_config self = Some c ->
  TgiLlm.path self ++ ["TgiEndpoint"] ∉ paths w ->
  let e := {| Cdk.endpoint_name := TgiLlm.endpoint_name self;
              Cdk.endpoint_config := c |} in
  TgiLlm._set_endpoint self w
  = (inr (TgiLlm.set_endpoint e self),
     add_node (TgiLlm.path self ++ ["TgiEndpoint"]) (Cdk.NEndpoint e) w).
Proof.
  intros Hc Hfresh e. unfold TgiLlm._set_endpoint, Endpoint_new. rewrite Hc. simpl.
  rewrite bind_ret_l. unfold bind. now rewrite (register_fresh _ _ _ _ Hfresh).
Qed.

(** A step that needs the result of the previous one raises when it is not
    there, before it creates anything. *)
Lemma set_model_needs_container (self : TgiLlm.t) (w : World) :
  TgiLlm.container_definition self = None ->
  TgiLlm._set_model self w = (inl (AttributeError "TgiLlm" "container_definition"), w).
Proof. intros H. unfold TgiLlm._set_model. now rewrite H. Qed.

Lemma set_config_needs_model (self : TgiLlm.t) (w : World) :
  TgiLlm.model self = None ->
  TgiLlm._set_config self w = (inl (AttributeError "TgiLlm" "model"), w).
Proof. intros H. unfold TgiLlm._set_config. now rewrite H. Qed.

Lemma set_endpoint_needs_config (self : TgiLlm.t) (w : World) :
  TgiLlm.endpoint_config self = None ->
  TgiLlm._set_endpoint self w = (inl (AttributeError "TgiLlm" "endpoint_config"), w).
Proof. intros H. unfold TgiLlm._set_endpoint. now rewrite H. Qed.

(** C4. [_set_config], run on an instance that has its model, creates the
    endpoint configuration with exactly one production variant; that variant
    carries the weight ["1.0"], the instance count [1], the instance type of
    the configuration and its health-check timeout. *)
Theorem C4_single_production_variant (self : TgiLlm.t) (w : World) (m : Cdk.Model) :
  TgiLlm.model self = Some m ->
  TgiLlm.path self ++ ["TgiEndpointConfig"] ∉ paths w ->
  exists c v w',
    TgiLlm._set_config self w = (inr (TgiLlm.set_endpoint_config c self), w')
    /\ In (TgiLlm.path self ++ ["TgiEndpointConfig"], Cdk.NEndpointConfig c) (tree w')
    /\ Cdk.instance_production_variants c = [v]
    /\ v !! "initialVariantWeight" = Some (PStr "1.0")
    /\ v !! "initialInstanceCount" = Some (PInt 1)
    /\ v !! "instanceType" = Some (PStr (instance_type (TgiLlm.props self)))
    /\ v !! "containerStartupHealthCheckTimeoutInSeconds"
       = Some (PInt (start_up_health_check_seconds (TgiLlm.props self))).
Proof.
  intros Hm Hfresh.
  destruct (set_config_spec self w m Hm Hfresh)
    as (c & v & Hrun & _ & Hvs & _ & _ & Hw & Hc & Hi & Ht & _).
  exists c, v, (add_node (TgiLlm.path self ++ ["TgiEndpointConfig"])
                  (Cdk.NEndpointConfig c) w).
  split; [exact Hrun|]. split; [|auto].
  simpl. apply in_or_app. right. now left.
Qed.

Lemma C4_witness :
  TgiLlm.model (instance_with_model props_minimal)
  = Some {| Cdk.model_name := "llm-4f0a-b81c9"; Cdk.containers := [] |}
  /\ (TgiLlm.path (instance_with_model props_minimal) ++ ["TgiEndpointConfig"]
      ∉ paths world0)
  /\ exists c v w',
      TgiLlm._set_config (instance_with_model props_minimal) world0
      = (inr (TgiLlm.set_endpoint_config c (instance_with_model props_minimal)), w')
      /\ In (TgiLlm.path (instance_with_model props_minimal) ++ ["TgiEndpointConfig"],
             Cdk.NEndpointConfig c) (tree w')
      /\ Cdk.instance_production_variants c = [v]
      /\ v !! "initialVariantWeight" = Some (PStr "1.0")
      /\ v !! "initialInstanceCount" = Some (PInt 1)
      /\ v !! "instanceType"
         = Some (PStr (instance_type
                         (TgiLlm.props (instance_with_model props_minimal))))
      /\ v !! "containerStartupHealthCheckTimeoutInSeconds"
         = Some (PInt (start_up_health_check_seconds
                         (TgiLlm.props (instance_with_model props_minimal)))).
Proof.
  split; [reflexivity|]. split; [simpl; apply not_elem_of_nil|].
  apply (C4_single_production_variant (instance_with_model props_minimal) world0
           {| Cdk.model_name := "llm-4f0a-b81c9"; Cdk.containers := [] |}).
  - reflexivity.
  - simpl. apply not_elem_of_nil.
Defined.

(** C6, as the code has it. The container [_set_container] attaches has its
    model data set exactly when [s3_model_path] was supplied as a non-empty
    string, and then to that path; when the field was left out the model data
    stays unset. *)
Theorem C6_model_data_iff_nonempty_path (self : TgiLlm.t) (w : World) :
  exists cd,
    TgiLlm._set_container self w = (inr (TgiLlm.set_container_definition cd self), w)
    /\ (is_Some (Cdk.model_data cd)
        <-> exists p, s3_model_path (TgiLlm.props self) = Some p /\ p <> "")
    /\ (forall p, s3_model_path (TgiLlm.props self) = Some p -> p <> "" ->
          Cdk.model_data cd = Some (sagemaker.from_asset p))
    /\ (s3_model_path (TgiLlm.props self) = None -> Cdk.model_data cd = None).
Proof.
  destruct (set_container_spec self w) as (cd & Hrun & _ & _ & Hmd).
  exists cd. split; [exact Hrun|]. rewrite Hmd.
  destruct (s3_model_path (TgiLlm.props self)) as [p|].
  - destruct (String.eqb p "") eqn:Hp.
    + apply String.eqb_eq in Hp. subst p.
      split; [|split; [congruence|discriminate]].
      split; [intros [x Hx]; discriminate|intros (q & Hq & Hne); congruence].
    + apply String.eqb_neq in Hp.
      split; [|split; [congruence|discriminate]].
      split; [intros _; now exists p|intros _; eauto].
  - split; [|split; [discriminate|reflexivity]].
    split; [intros [x Hx]; discriminate|intros (q & Hq & _); discriminate].
Qed.

(** C6, counterexample to "set if and only if supplied": with
    [s3_model_path] supplied as the empty string the container is attached
    without model data. *)
Lemma C6_counterexample_empty_path_supplied :
  s3_model_path (TgiLlm.props (instance_of props_empty_path)) = Some ""
  /\ TgiLlm._set_container (instance_of props_empty_path) world0
     = (inr (TgiLlm.set_container_definition
               {| Cdk.image :=
                    sagemaker.from_dlc "huggingface-pytorch-inference" "2.0.1";
                  Cdk.environment := {| HF_MODEL_ID := "gpt2" |};
                  Cdk.model_data := None |}
               (instance_of props_empty_path)), world0).
Proof. split; reflexivity. Qed.

(** C9. A configuration whose [s3_model_path] is the empty string gets the
    container a configuration without [s3_model_path] gets: no model data
    is attached. *)
Theorem C9_empty_path_is_like_no_path (self self' : TgiLlm.t) (w w' : World) :
  s3_model_path (TgiLlm.props self) = Some "" ->
  s3_model_path (TgiLlm.props self') = None ->
  repo_name (TgiLlm.props self) = repo_name (TgiLlm.props self') ->
  tag (TgiLlm.props self) = tag (TgiLlm.props self') ->
  environment_vars (TgiLlm.props self) = environment_vars (TgiLlm.props self') ->
  exists cd,
    TgiLlm._set_container self w = (inr (TgiLlm.set_container_definition cd self), w)
    /\ TgiLlm._set_container self' w'
       = (inr (TgiLlm.set_container_definition cd self'), w')
    /\ Cdk.model_data cd = None.
Proof.
  intros He Hn Hr Ht Hv. unfold TgiLlm._set_container. simpl.
  rewrite He, Hn, Hr, Ht, Hv. simpl. eexists. repeat split.
Qed.

Lemma C9_witness :
  s3_model_path (TgiLlm.props (instance_of props_empty_path)) = Some ""
  /\ s3_model_path (TgiLlm.props (instance_of props_minimal)) = None
  /\ repo_name (TgiLlm.props (instance_of props_empty_path))
     = repo_name (TgiLlm.props (instance_of props_minimal))
  /\ tag (TgiLlm.props (instance_of props_empty_path))
     = tag (TgiLlm.props (instance_of props_minimal))
  /\ environment_vars (TgiLlm.props (instance_of props_empty_path))
     = environment_vars (TgiLlm.props (instance_of props_minimal))
  /\ exists cd,
      TgiLlm._set_container (instance_of props_empty_path) world0
      = (inr (TgiLlm.set_container_definition cd (instance_of props_empty_path)),
         world0)
      /\ TgiLlm._set_container (instance_of props_minimal) world0
         = (inr (TgiLlm.set_container_definition cd (instance_of props_minimal)),
            world0)
      /\ Cdk.model_data cd = None.
Proof.
  do 5 (split; [reflexivity|]).
  apply (C9_empty_path_is_like_no_path (instance_of props_empty_path)
           (instance_of props_minimal) world0 world0); reflexivity.
Defined.

(** C10. Whatever keys the configuration gives in [environment_vars], the
    environment of the container [_set_container] attaches has the single
    entry [HF_MODEL_ID], with the value the configuration gave for it; every
    other key is gone. *)
Theorem C10_environment_is_model_id_only
    (c : Config) (p : Props) (self : TgiLlm.t) (w : World) :
  Props_validate c = inr p ->
  TgiLlm.props self = p ->
  exists m v cd,
    cfg_environment_vars c = Some m
    /\ m !! "HF_MODEL_ID" = Some v
    /\ TgiLlm._set_container self w
       = (inr (TgiLlm.set_container_definition cd self), w)
    /\ HFVars_dict (Cdk.environment cd) = {[ "HF_MODEL_ID" := v ]}
    /\ dom (HFVars_dict (Cdk.environment cd)) = {[ "HF_MODEL_ID" ]}
    /\ (forall k, k <> "HF_MODEL_ID" -> HFVars_dict (Cdk.environment cd) !! k = None).
Proof.
  intros Hv Hp.
  destruct (Props_validate_inv c p Hv) as (t & m & v & Ht & He & Hm).
  rewrite (Props_validate_ok c t v m Ht He Hm) in Hv. injection Hv as <-.
  destruct (set_container_spec self w) as (cd & Hrun & _ & Henv & _).
  exists m, v, cd. rewrite Henv, Hp. unfold HFVars_dict. simpl.
  split; [exact He|]. split; [exact Hm|]. split; [exact Hrun|].
  split; [reflexivity|]. split.
  - apply dom_singleton_L.
  - intros k Hk. apply lookup_singleton_ne. congruence.
Qed.

Lemma C10_witness :
  Props_validate cfg_extra_vars = inr props_minimal
  /\ TgiLlm.props (instance_of props_minimal) = props_minimal
  /\ exists m v cd,
      cfg_environment_vars cfg_extra_vars = Some m
      /\ m !! "HF_MODEL_ID" = Some v
      /\ TgiLlm._set_container (instance_of props_minimal) world0
         = (inr (TgiLlm.set_container_definition cd (instance_of props_minimal)),
            world0)
      /\ HFVars_dict (Cdk.environment cd) = {[ "HF_MODEL_ID" := v ]}
      /\ dom (HFVars_dict (Cdk.environment cd)) = {[ "HF_MODEL_ID" ]}
      /\ (forall k, k <> "HF_MODEL_ID" ->
            HFVars_dict (Cdk.environment cd) !! k = None).
Proof.
  split; [vm_compute; reflexivity|]. split; [reflexivity|].
  apply (C10_environment_is_model_id_only cfg_extra_vars props_minimal
           (instance_of props_minimal) world0).
  - vm_compute; reflexivity.
  - reflexivity.
Defined.

(** C7. A configuration that gives only [tag] and the environment variables
    validates to an instance with the repository name
    ["huggingface-pytorch-inference"] and the instance type ["ml.g5.2xlarge"];
    on an instance built from it [_set_container] references that repository
    with the given tag, and the variant [_set_config] writes carries instance
    type ["ml.g5.2xlarge"] and timeout 300. *)
Theorem C7_defaults_reach_the_nodes (t v : string) (m : gmap string string) :
  m !! "HF_MODEL_ID" = Some v ->
  exists p,
    Props_validate {| cfg_instance_type := None;
                      cfg_environment_vars := Some m;
                      cfg_s3_model_path := None;
                      cfg_tag := Some t;
                      cfg_start_up_health_check_seconds := None;
                      cfg_repo_name := None |} = inr p
    /\ repo_name p = "huggingface-pytorch-inference"
    /\ instance_type p = "ml.g5.2xlarge"
    /\ forall (self : TgiLlm.t) (w : World),
        TgiLlm.props self = p ->
        (exists cd,
            TgiLlm._set_container self w
            = (inr (TgiLlm.set_container_definition cd self), w)
            /\ Cdk.image cd
               = sagemaker.from_dlc "huggingface-pytorch-inference" t)
        /\ (forall mdl,
              TgiLlm.model self = Some mdl ->
              TgiLlm.path self ++ ["TgiEndpointConfig"] ∉ paths w ->
              exists c vr w',
                TgiLlm._set_config self w
                = (inr (TgiLlm.set_endpoint_config c self), w')
                /\ Cdk.instance_production_variants c = [vr]
                /\ vr !! "instanceType" = Some (PStr "ml.g5.2xlarge")
                /\ vr !! "containerStartupHealthCheckTimeoutInSeconds"
                   = Some (PInt 300)).
Proof.
  intros Hm. eexists. split.
  { apply (Props_validate_ok _ t v m); [reflexivity|reflexivity|exact Hm]. }
  simpl. split; [reflexivity|]. split; [reflexivity|].
  intros self w Hp. split.
  - destruct (set_container_spec self w) as (cd & Hrun & Himg & _).
    exists cd. split; [exact Hrun|]. now rewrite Himg, Hp.
  - intros mdl Hmdl Hfresh.
    destruct (set_config_spec self w mdl Hmdl Hfresh)
      as (c & vr & Hrun & _ & Hvs & _ & _ & _ & _ & Hi & Ht & _).
    rewrite Hp in Hi, Ht. simpl in Hi, Ht. eauto 10.
Qed.

Lemma C7_witness :
  ({[ "HF_MODEL_ID" := "gpt2" ]} : gmap string string) !! "HF_MODEL_ID" = Some "gpt2"
  /\ exists p,
      Props_validate cfg_minimal = inr p
      /\ repo_name p = "huggingface-pytorch-inference"
      /\ instance_type p = "ml.g5.2xlarge"
      /\ forall (self : TgiLlm.t) (w : World),
          TgiLlm.props self = p ->
          (exists cd,
              TgiLlm._set_container self w
              = (inr (TgiLlm.set_container_definition cd self), w)
              /\ Cdk.image cd
                 = sagemaker.from_dlc "huggingface-pytorch-inference" "2.0.1")
          /\ (forall mdl,
                TgiLlm.model self = Some mdl ->
                TgiLlm.path self ++ ["TgiEndpointConfig"] ∉ paths w ->
                exists c vr w',
                  TgiLlm._set_config self w
                  = (inr (TgiLlm.set_endpoint_config c self), w')
                  /\ Cdk.instance_production_variants c = [vr]
                  /\ vr !! "instanceType" = Some (PStr "ml.g5.2xlarge")
                  /\ vr !! "containerStartupHealthCheckTimeoutInSeconds"
                     = Some (PInt 300)).
Proof.
  split; [reflexivity|].
  apply (C7_defaults_reach_the_nodes "2.0.1" "gpt2" {[ "HF_MODEL_ID" := "gpt2" ]}).
  reflexivity.
Defined.

(** ** The whole build *)

(** What [run_endpoint_build] does on an instance whose four identifiers are
    free: the steps run in the order container, model, endpoint
    configuration, endpoint, each one using what the one before attached;
    the tree gains the three resources in that order and then one output,
    whose value is the endpoint name of the instance. The random source is
    not used, and the names of the instance are the ones it started with. *)
Lemma run_endpoint_build_spec (self : TgiLlm.t) (w : World) :
  TgiLlm.path self ++ ["TgiModel"] ∉ paths w ->
  TgiLlm.path self ++ ["TgiEndpointConfig"] ∉ paths w ->
  TgiLlm.path self ++ ["TgiEndpoint"] ∉ paths w ->
  TgiLlm.path self ++ ["EndpointName"] ∉ paths w ->
  exists cd c self' w',
    let m := {| Cdk.model_name := TgiLlm.model_name self; Cdk.containers := [cd] |} in
    let e := {| Cdk.endpoint_name := TgiLlm.endpoint_name self;
                Cdk.endpoint_config := c |} in
    TgiLlm.run_endpoint_build self w = (inr self', w')
    /\ self' = TgiLlm.set_endpoint e
                 (TgiLlm.set_endpoint_config c
                    (TgiLlm.set_model m (TgiLlm.set_container_definition cd self)))
    /\ Cdk.endpoint_config_name c = TgiLlm.endpoint_config_name self
    /\ tree w'
       = tree w ++ [(TgiLlm.path self ++ ["TgiModel"], Cdk.NModel m);
                    (TgiLlm.path self ++ ["TgiEndpointConfig"], Cdk.NEndpointConfig c);
                    (TgiLlm.path self ++ ["TgiEndpoint"], Cdk.NEndpoint e);
                    (TgiLlm.path self ++ ["EndpointName"],
                     Cdk.NOutput (TgiLlm.endpoint_name self))]
    /\ rand_pos w' = rand_pos w.
Proof.
  intros Hm Hc He Ho.
  destruct (set_container_spec self w) as (cd & H1 & _).
  set (s1 := TgiLlm.set_container_definition cd self) in *.
  pose proof (set_model_spec s1 w cd eq_refl Hm) as H2. simpl in H2.
  set (m := {| Cdk.model_name := TgiLlm.model_name self; Cdk.containers := [cd] |}) in *.
  set (s2 := TgiLlm.set_model m s1) in *.
  set (w2 := add_node (TgiLlm.path self ++ ["TgiModel"]) (Cdk.NModel m) w) in *.
  assert (Hc2 : TgiLlm.path s2 ++ ["TgiEndpointConfig"] ∉ paths w2)
    by (apply fresh_add_node; [discriminate|exact Hc]).
  destruct (set_config_spec s2 w2 m eq_refl Hc2) as (c & v & H3 & Hname & _).
  simpl in H3.
  set (s3 := TgiLlm.set_endpoint_config c s2) in *.
  set (w3 := add_node (TgiLlm.path self ++ ["TgiEndpointConfig"])
               (Cdk.NEndpointConfig c) w2) in *.
  assert (He3 : TgiLlm.path s3 ++ ["TgiEndpoint"] ∉ paths w3)
    by (do 2 (apply fresh_add_node; [discriminate|]); exact He).
  pose proof (set_endpoint_spec s3 w3 c eq_refl He3) as H4. simpl in H4.
  set (e := {| Cdk.endpoint_name := TgiLlm.endpoint_name self;
               Cdk.endpoint_config := c |}) in *.
  set (s4 := TgiLlm.set_endpoint e s3) in *.
  set (w4 := add_node (TgiLlm.path self ++ ["TgiEndpoint"]) (Cdk.NEndpoint e) w3) in *.
  assert (Ho4 : TgiLlm.path s4 ++ ["EndpointName"] ∉ paths w4)
    by (do 3 (apply fresh_add_node; [discriminate|]); exact Ho).
  exists cd, c, s4,
    (add_node (TgiLlm.path self ++ ["EndpointName"])
       (Cdk.NOutput (TgiLlm.endpoint_name self)) w4).
  split.
  { unfold TgiLlm.run_endpoint_build.
    rewrite (bind_returns _ _ _ _ _ H1), (bind_returns _ _ _ _ _ H2),
      (bind_returns _ _ _ _ _ H3), (bind_returns _ _ _ _ _ H4).
    simpl. rewrite bind_ret_l. unfold CfnOutput, bind.
    now rewrite (register_fresh _ _ _ _ Ho4). }
  split; [reflexivity|]. split; [exact Hname|]. split; [|reflexivity].
  simpl. now rewrite <- !app_assoc.
Qed.

(** Reading [props.name]: [Props] declares no such field. *)
Lemma Props_getattr_name (p : Props) (w : World) :
  Props_getattr p "name" w = (inl (AttributeError "Props" "name"), w).
Proof. reflexivity. Qed.

(** [__init__] registers the construct, draws the suffix, and then raises on
    the first [self.props.name]. *)
Lemma init_raises (py_str : attr -> string) (scope : list string) (cid : string)
    (props : Props) (w : World) :
  scope ++ [cid] ∉ paths w ->
  TgiLlm.__init__ py_str scope cid props w
  = (inl (AttributeError "Props" "name"),
     advance 11 (add_node (scope ++ [cid]) Cdk.NConstruct w)).
Proof.
  intros Hfresh. unfold TgiLlm.__init__.
  rewrite (bind_returns _ _ _ _ _ (register_fresh _ _ _ _ Hfresh)).
  destruct (generate_unique_id_spec 10 (add_node (scope ++ [cid]) Cdk.NConstruct w))
    as (l & Hrun & _).
  unfold generate_unique_id_default.
  rewrite (bind_returns _ _ _ _ _ Hrun).
  now rewrite (bind_raises _ _ _ _ _ (Props_getattr_name props _)).
Qed.

(** C1, on the code. For every validated configuration the constructor of
    [TgiLlm] raises: with a free identifier it fails on [self.props.name],
    with a used one on the registration. No instance comes back, so
    [run_endpoint_build] has nothing to run on, and the tree holds no model,
    endpoint configuration, endpoint or output that was not there before. *)
Theorem C1_constructor_never_returns (py_str : attr -> string)
    (scope : list string) (cid : string) (props : Props) (w : World) :
  exists e w',
    TgiLlm.__init__ py_str scope cid props w = (inl e, w')
    /\ (e = AttributeError "Props" "name" \/ e = ConstructError (scope ++ [cid]))
    /\ forall x, In x (tree w') ->
         In x (tree w) \/ x = (scope ++ [cid], Cdk.NConstruct).
Proof.
  destruct (decide (scope ++ [cid] ∈ paths w)) as [Hused|Hfresh].
  - exists (ConstructError (scope ++ [cid])), w. split.
    + unfold TgiLlm.__init__.
      now rewrite (bind_raises _ _ _ _ _ (register_used _ _ _ _ Hused)).
    + split; [now right|]. intros x Hx. now left.
  - eexists _, _. split; [now apply init_raises|].
    split; [now left|]. simpl. intros x Hx.
    apply in_app_or in Hx. destruct Hx as [Hx|[<-|[]]]; auto.
Qed.

(** C8, on the code. [__init__] draws the suffix once (one raw number for the
    UUID and ten for the characters) and then raises on [self.props.name]
    before any of the three names is assigned. *)
Theorem C8_suffix_drawn_then_constructor_raises (py_str : attr -> string)
    (scope : list string) (cid : string) (props : Props) (w : World) :
  scope ++ [cid] ∉ paths w ->
  exists uid w',
    generate_unique_id_default (add_node (scope ++ [cid]) Cdk.NConstruct w)
    = (inr uid, w')
    /\ rand_pos w' = (11 + rand_pos w)%nat
    /\ TgiLlm.__init__ py_str scope cid props w
       = (inl (AttributeError "Props" "name"), w').
Proof.
  intros Hfresh.
  destruct (generate_unique_id_spec 10 (add_node (scope ++ [cid]) Cdk.NConstruct w))
    as (l & Hrun & _).
  exists (string_of_list_ascii l), (advance 11 (add_node (scope ++ [cid]) Cdk.NConstruct w)).
  split; [exact Hrun|]. split; [reflexivity|]. now apply init_raises.
Qed.

Lemma C8_witness :
  (["Stack"] ++ ["Llm"] ∉ paths world0)
  /\ exists uid w',
      generate_unique_id_default (add_node (["Stack"] ++ ["Llm"]) Cdk.NConstruct world0)
      = (inr uid, w')
      /\ rand_pos w' = (11 + rand_pos world0)%nat
      /\ TgiLlm.__init__ (fun _ => "llm") ["Stack"] "Llm" props_minimal world0
         = (inl (AttributeError "Props" "name"), w').
Proof.
  split; [simpl; apply not_elem_of_nil|].
  apply (C8_suffix_drawn_then_constructor_raises (fun _ => "llm") ["Stack"] "Llm"
           props_minimal world0).
  simpl. apply not_elem_of_nil.
Defined.

(** No build step changes the suffix or a name derived from it. *)
Lemma steps_keep_identity (step : TgiLlm.t -> Py TgiLlm.t)
    (self self' : TgiLlm.t) (w w' : World) :
  step = TgiLlm._set_container \/ step = TgiLlm._set_model
  \/ step = TgiLlm._set_config \/ step = TgiLlm._set_endpoint ->
  step self w = (inr self', w') ->
  TgiLlm.unique_id self' = TgiLlm.unique_id self
  /\ TgiLlm.model_name self' = TgiLlm.model_name self
  /\ TgiLlm.endpoint_config_name self' = TgiLlm.endpoint_config_name self
  /\ TgiLlm.endpoint_name self' = TgiLlm.endpoint_name self.
Proof.
  intros [-> | [-> | [-> | ->]]].
  - destruct (set_container_spec self w) as (cd & Hrun & _).
    rewrite Hrun. intros [= <- _]. now simpl.
  - unfold TgiLlm._set_model, Model_new, TgiLlm.getattr, bind, register, ret, raise.
    repeat (case_match; simplify_eq); try discriminate; intros; simplify_eq; now simpl.
  - unfold TgiLlm._set_config, EndpointConfig_new, TgiLlm.getattr, bind, register, ret, raise.
    repeat (case_match; simplify_eq); try discriminate; intros; simplify_eq; now simpl.
  - unfold TgiLlm._set_endpoint, Endpoint_new, TgiLlm.getattr, bind, register, ret, raise.
    repeat (case_match; simplify_eq); try discriminate; intros; simplify_eq; now simpl.
Qed.

(** * Further properties of the module *)

(** ** [generate_unique_id] *)

(** For a length that is zero or negative nothing is picked: the result is
    the empty string, and only the UUID has been drawn. *)
Lemma generate_unique_id_nonpositive (n : Z) (w : World) :
  n <= 0 -> generate_unique_id n w = (inr EmptyString, advance 1 w).
Proof.
  intros Hn. unfold generate_unique_id, uuid4.
  replace (Z.to_nat n) with O by lia. reflexivity.
Qed.

Lemma generate_unique_id_nonpositive_witness :
  -3 <= 0 /\ generate_unique_id (-3) world0 = (inr EmptyString, advance 1 world0).
Proof. split; [lia|]. apply (generate_unique_id_nonpositive (-3) world0). lia. Defined.

(** Whatever the length asked for, negative ones included, the call
    returns and does not raise: the text of a UUID is never empty, so
    [random.choice] always has something to choose from. The result has as
    many characters as [range] has elements, and the construct tree is left
    alone. *)
Lemma generate_unique_id_effect (n : Z) (w : World) :
  exists s w',
    generate_unique_id n w = (inr s, w')
    /\ String.length s = Z.to_nat n
    /\ tree w' = tree w.
Proof.
  destruct (generate_unique_id_spec n w) as (l & Hrun & Hlen & _).
  eexists _, _. split; [exact Hrun|].
  rewrite length_string_of_list, Hlen. simpl. auto.
Qed.

Lemma hex_digit_alphabet (d : N) :
  In (hex_digit d) (list_ascii_of_string hex_alphabet).
Proof.
  destruct d as [|p]; [simpl; tauto|].
  do 4 (try destruct p as [p|p|]); simpl; tauto.
Qed.

Lemma hex_fixed_alphabet (k : nat) (z : N) :
  Forall (fun c => In c (list_ascii_of_string hex_alphabet)) (hex_fixed k z).
Proof.
  revert z. induction k as [|k IH]; intros z; simpl; [constructor|].
  apply Forall_app. split; [apply IH|].
  constructor; [apply hex_digit_alphabet|constructor].
Qed.

Lemma UUID_str_alphabet (i : N) :
  Forall (fun c => In c (list_ascii_of_string hex_alphabet))
         (list_ascii_of_string (UUID_str i)).
Proof.
  unfold UUID_str. rewrite list_ascii_of_string_of_list_ascii.
  pose proof (hex_fixed_alphabet 32 i) as Hhex.
  assert (Hdash : Forall (fun c => In c (list_ascii_of_string hex_alphabet))
                         ["-"%char])
    by (constructor; [simpl; tauto|constructor]).
  repeat (apply Forall_app; split);
    auto using Forall_take, Forall_drop.
Qed.

(** The suffix is written with lower-case hexadecimal digits and dashes
    only. *)
Lemma generate_unique_id_alphabet (n : Z) (w : World) :
  exists s w',
    generate_unique_id n w = (inr s, w')
    /\ Forall (fun c => In c (list_ascii_of_string hex_alphabet))
              (list_ascii_of_string s).
Proof.
  destruct (generate_unique_id_spec n w) as (l & Hrun & _ & Hall).
  eexists _, _. split; [exact Hrun|].
  rewrite list_ascii_of_string_of_list_ascii.
  pose proof (UUID_str_alphabet (uuid4_int (entropy w (rand_pos w)))) as Hu.
  rewrite Forall_forall in Hall, Hu. apply Forall_forall.
  intros c Hc. apply Hu, list_elem_of_In, Hall, Hc.
Qed.

(** ** Validation *)

(** For a configuration whose supplied values have the declared types (what
    [Config] holds), validation succeeds exactly when [tag] is given and
    [environment_vars] is given with an [HF_MODEL_ID] entry: the other four
    fields have defaults and no constraint. *)
Lemma Props_validate_succeeds_iff (c : Config) :
  (exists p, Props_validate c = inr p)
  <-> (exists t, cfg_tag c = Some t)
      /\ (exists m v, cfg_environment_vars c = Some m /\ m !! "HF_MODEL_ID" = Some v).
Proof.
  split.
  - intros [p Hp]. destruct (Props_validate_inv c p Hp) as (t & m & v & Ht & He & Hm).
    split; [now exists t|now exists m, v].
  - intros [[t Ht] (m & v & He & Hm)]. eexists.
    now apply (Props_validate_ok c t v m).
Qed.

(** For a configuration whose supplied values have the declared types (what
    [Config] holds), a failed validation reports every missing required
    field and nothing else: [tag], [environment_vars], or [HF_MODEL_ID]
    inside [environment_vars]. *)
Lemma Props_validate_reports_missing (c : Config) (es : list loc) :
  Props_validate c = inl es ->
  (In ["tag"] es <-> cfg_tag c = None)
  /\ (In ["environment_vars"] es <-> cfg_environment_vars c = None)
  /\ (In ["environment_vars"; "HF_MODEL_ID"] es
      <-> exists m, cfg_environment_vars c = Some m /\ m !! "HF_MODEL_ID" = None)
  /\ (forall l, In l es ->
        l = ["tag"] \/ l = ["environment_vars"]
        \/ l = ["environment_vars"; "HF_MODEL_ID"]).
Proof.
  unfold Props_validate, HFVars_validate, required.
  destruct (cfg_environment_vars c) as [m|]; simpl;
    [destruct (m !! "HF_MODEL_ID") as [v|] eqn:Hm|];
    destruct (cfg_tag c) as [t|]; simpl; intros [= <-]; simpl.
  all: split; [split; [intros H|intros H; try discriminate; auto]|];
    [firstorder discriminate|].
  all: split; [split; [intros H|intros H; try discriminate; auto]|];
    [firstorder discriminate|].
  all: split; [split; [intros H|intros (m' & H & Hm')]|intros l H];
    try (firstorder discriminate); try congruence; eauto.
  all: simpl in H; intuition (subst; auto).
Qed.

Lemma Props_validate_reports_missing_witness :
  Props_validate cfg_empty = inl [["environment_vars"]; ["tag"]]
  /\ (In ["tag"] [["environment_vars"]; ["tag"]] <-> cfg_tag cfg_empty = None)
  /\ (In ["environment_vars"] [["environment_vars"]; ["tag"]]
      <-> cfg_environment_vars cfg_empty = None)
  /\ (In ["environment_vars"; "HF_MODEL_ID"] [["environment_vars"]; ["tag"]]
      <-> exists m, cfg_environment_vars cfg_empty = Some m
                    /\ m !! "HF_MODEL_ID" = None)
  /\ (forall l, In l [["environment_vars"]; ["tag"]] ->
        l = ["tag"] \/ l = ["environment_vars"]
        \/ l = ["environment_vars"; "HF_MODEL_ID"]).
Proof.
  split; [reflexivity|].
  apply (Props_validate_reports_missing cfg_empty [["environment_vars"]; ["tag"]]).
  reflexivity.
Defined.

(** Values the configuration gives for [instance_type], [repo_name],
    [start_up_health_check_seconds] and [s3_model_path] replace the defaults
    and reach the nodes: the container image names the given repository and
    tag, and the production variant carries the given instance type and
    timeout. *)
Lemma supplied_values_reach_the_nodes
    (c : Config) (t v it r : string) (z : Z) (m : gmap string string) :
  cfg_tag c = Some t ->
  cfg_environment_vars c = Some m ->
  m !! "HF_MODEL_ID" = Some v ->
  cfg_instance_type c = Some it ->
  cfg_repo_name c = Some r ->
  cfg_start_up_health_check_seconds c = Some z ->
  exists p,
    Props_validate c = inr p
    /\ s3_model_path p = cfg_s3_model_path c
    /\ forall (self : TgiLlm.t) (w : World),
        TgiLlm.props self = p ->
        (exists cd,
            TgiLlm._set_container self w
            = (inr (TgiLlm.set_container_definition cd self), w)
            /\ Cdk.image cd = sagemaker.from_dlc r t)
        /\ (forall mdl,
              TgiLlm.model self = Some mdl ->
              TgiLlm.path self ++ ["TgiEndpointConfig"] ∉ paths w ->
              exists ec vr w',
                TgiLlm._set_config self w
                = (inr (TgiLlm.set_endpoint_config ec self), w')
                /\ Cdk.instance_production_variants ec = [vr]
                /\ vr !! "instanceType" = Some (PStr it)
                /\ vr !! "containerStartupHealthCheckTimeoutInSeconds"
                   = Some (PInt z)).
Proof.
  intros Ht He Hm Hit Hr Hz. eexists. split.
  { apply (Props_validate_ok c t v m); assumption. }
  rewrite Hit, Hr, Hz. simpl. split; [reflexivity|].
  intros self w Hp. split.
  - destruct (set_container_spec self w) as (cd & Hrun & Himg & _).
    exists cd. split; [exact Hrun|]. now rewrite Himg, Hp.
  - intros mdl Hmdl Hfresh.
    destruct (set_config_spec self w mdl Hmdl Hfresh)
      as (ec & vr & Hrun & _ & Hvs & _ & _ & _ & _ & Hi & Hto & _).
    rewrite Hp in Hi, Hto. simpl in Hi, Hto. eauto 10.
Qed.

Lemma supplied_values_reach_the_nodes_witness :
  cfg_tag cfg_custom = Some "2.0.1"
  /\ cfg_environment_vars cfg_custom = Some {[ "HF_MODEL_ID" := "gpt2" ]}
  /\ ({[ "HF_MODEL_ID" := "gpt2" ]} : gmap string string) !! "HF_MODEL_ID"
     = Some "gpt2"
  /\ cfg_instance_type cfg_custom = Some "ml.g5.12xlarge"
  /\ cfg_repo_name cfg_custom = Some "huggingface-pytorch-tgi-inference"
  /\ cfg_start_up_health_check_seconds cfg_custom = Some 900
  /\ exists p,
      Props_validate cfg_custom = inr p
      /\ s3_model_path p = cfg_s3_model_path cfg_custom
      /\ forall (self : TgiLlm.t) (w : World),
          TgiLlm.props self = p ->
          (exists cd,
              TgiLlm._set_container self w
              = (inr (TgiLlm.set_container_definition cd self), w)
              /\ Cdk.image cd
                 = sagemaker.from_dlc "huggingface-pytorch-tgi-inference" "2.0.1")
          /\ (forall mdl,
                TgiLlm.model self = Some mdl ->
                TgiLlm.path self ++ ["TgiEndpointConfig"] ∉ paths w ->
                exists ec vr w',
                  TgiLlm._set_config self w
                  = (inr (TgiLlm.set_endpoint_config ec self), w')
                  /\ Cdk.instance_production_variants ec = [vr]
                  /\ vr !! "instanceType" = Some (PStr "ml.g5.12xlarge")
                  /\ vr !! "containerStartupHealthCheckTimeoutInSeconds"
                     = Some (PInt 900)).
Proof.
  do 6 (split; [reflexivity|]).
  apply (supplied_values_reach_the_nodes cfg_custom "2.0.1" "gpt2"
           "ml.g5.12xlarge" "huggingface-pytorch-tgi-inference" 900
           {[ "HF_MODEL_ID" := "gpt2" ]}); reflexivity.
Defined.

(** ** The build steps and the tree *)

Lemma register_outcome (scope : list string) (id : string) (n : Cdk.node) (w : World) :
  ((scope ++ [id] ∈ paths w)
   /\ register scope id n w = (inl (ConstructError (scope ++ [id])), w))
  \/ ((scope ++ [id] ∉ paths w)
      /\ register scope id n w = (inr (scope ++ [id]), add_node (scope ++ [id]) n w)).
Proof.
  destruct (decide (scope ++ [id] ∈ paths w)) as [Hin|Hout].
  - left. split; [exact Hin|now apply register_used].
  - right. split; [exact Hout|now apply register_fresh].
Qed.

Lemma used_add_node (p q : list string) (n : Cdk.node) (w : World) :
  p ∈ paths w -> p ∈ paths (add_node q n w).
Proof. intros H. rewrite paths_add_node, elem_of_app. now left. Qed.

Lemma extends_refl (p : list string) (k : nat) (w : World) : extends_under p k w w.
Proof.
  repeat split; auto. exists []. rewrite app_nil_r. repeat split; simpl; [lia|constructor].
Qed.

Lemma extends_add (scope : list string) (id : string) (n : Cdk.node) (w : World) :
  scope ++ [id] ∉ paths w ->
  extends_under scope 1 w (add_node (scope ++ [id]) n w).
Proof.
  intros Hfresh. repeat split; auto.
  - exists [(scope ++ [id], n)]. repeat split; simpl; [lia|].
    constructor; [now exists id|constructor].
  - intros Hnd. rewrite paths_add_node. apply NoDup_app. repeat split; auto.
    + intros x Hx Hx'. apply list_elem_of_singleton in Hx'. subst. auto.
    + apply NoDup_singleton.
Qed.

Lemma extends_trans (p : list string) (j k : nat) (w1 w2 w3 : World) :
  extends_under p j w1 w2 -> extends_under p k w2 w3 ->
  extends_under p (j + k) w1 w3.
Proof.
  intros (He1 & Hr1 & (a1 & Ht1 & Hl1 & Hf1) & Hn1)
         (He2 & Hr2 & (a2 & Ht2 & Hl2 & Hf2) & Hn2).
  repeat split; [congruence|congruence| |auto].
  exists (a1 ++ a2). repeat split.
  - now rewrite Ht2, Ht1, app_assoc.
  - rewrite length_app. lia.
  - now apply Forall_app.
Qed.

Lemma extends_mono (p : list string) (j k : nat) (w w' : World) :
  (j <= k)%nat -> extends_under p j w w' -> extends_under p k w w'.
Proof.
  intros Hjk (He & Hr & (a & Ht & Hl & Hf) & Hn).
  repeat split; auto. exists a. repeat split; auto. lia.
Qed.

Lemma extends_path_eq (p q : list string) (k : nat) (w w' : World) :
  p = q -> extends_under p k w w' -> extends_under q k w w'.
Proof. now intros ->. Qed.

Lemma register_extends (scope : list string) (id : string) (n : Cdk.node) (w : World) :
  extends_under scope 1 w (snd (register scope id n w)).
Proof.
  destruct (register_outcome scope id n w) as [[_ ->]|[Hfresh ->]]; simpl.
  - apply extends_refl.
  - now apply extends_add.
Qed.

Lemma snd_bind {A B} (c : Py A) (k : A -> Py B) (w : World) :
  snd (bind c k w)
  = match c w with
    | (inr a, w') => snd (k a w')
    | (inl _, w') => w'
    end.
Proof. unfold bind. now destruct (c w) as [[e|a] w']. Qed.

Lemma set_model_extends (self : TgiLlm.t) (w : World) :
  extends_under (TgiLlm.path self) 1 w (snd (TgiLlm._set_model self w))
  /\ forall s w', TgiLlm._set_model self w = (inr s, w') ->
       TgiLlm.path s = TgiLlm.path self.
Proof.
  unfold TgiLlm._set_model, Model_new, TgiLlm.getattr.
  destruct (TgiLlm.container_definition self) as [cd|]; simpl.
  - unfold bind, ret.
    match goal with |- context [register ?s ?i ?n w] =>
      pose proof (register_extends s i n w) as Hext;
      destruct (register s i n w) as [[e|p] w1] end; simpl in *.
    + split; [exact Hext|]. intros s w' [=].
    + split; [exact Hext|]. intros s w' [= <- _]. reflexivity.
  - split; [apply extends_refl|]. intros s w' [=].
Qed.

Lemma set_config_extends (self : TgiLlm.t) (w : World) :
  extends_under (TgiLlm.path self) 1 w (snd (TgiLlm._set_config self w))
  /\ forall s w', TgiLlm._set_config self w = (inr s, w') ->
       TgiLlm.path s = TgiLlm.path self.
Proof.
  unfold TgiLlm._set_config, EndpointConfig_new, TgiLlm.getattr.
  destruct (TgiLlm.model self) as [m|]; simpl.
  - unfold bind, ret.
    match goal with |- context [register ?s ?i ?n w] =>
      pose proof (register_extends s i n w) as Hext;
      destruct (register s i n w) as [[e|p] w1] end; simpl in *.
    + split; [exact Hext|]. intros s w' [=].
    + split; [exact Hext|]. intros s w' [= <- _]. reflexivity.
  - split; [apply extends_refl|]. intros s w' [=].
Qed.

Lemma set_endpoint_extends (self : TgiLlm.t) (w : World) :
  extends_under (TgiLlm.path self) 1 w (snd (TgiLlm._set_endpoint self w))
  /\ forall s w', TgiLlm._set_endpoint self w = (inr s, w') ->
       TgiLlm.path s = TgiLlm.path self.
Proof.
  unfold TgiLlm._set_endpoint, Endpoint_new, TgiLlm.getattr.
  destruct (TgiLlm.endpoint_config self) as [c|]; simpl.
  - unfold bind, ret.
    match goal with |- context [register ?s ?i ?n w] =>
      pose proof (register_extends s i n w) as Hext;
      destruct (register s i n w) as [[e|p] w1] end; simpl in *.
    + split; [exact Hext|]. intros s w' [=].
    + split; [exact Hext|]. intros s w' [= <- _]. reflexivity.
  - split; [apply extends_refl|]. intros s w' [=].
Qed.

Lemma output_extends (self : TgiLlm.t) (w : World) :
  extends_under (TgiLlm.path self) 1 w
    (snd ((let* e := TgiLlm.getattr "endpoint" (TgiLlm.endpoint self) in
           let* _u := CfnOutput (TgiLlm.path self) "EndpointName" (Cdk.endpoint_name e) in
           ret self) w)).
Proof.
  unfold TgiLlm.getattr, CfnOutput.
  destruct (TgiLlm.endpoint self) as [e|]; simpl.
  - unfold bind, ret.
    match goal with |- context [register ?s ?i ?n w] =>
      pose proof (register_extends s i n w) as Hext;
      destruct (register s i n w) as [[e'|p] w1] end; simpl in *; exact Hext.
  - apply extends_refl.
Qed.

(** Whatever happens inside [run_endpoint_build], the world it leaves is the
    one it found with at most four constructs added under the instance. *)
Lemma run_endpoint_build_extends (self : TgiLlm.t) (w : World) :
  extends_under (TgiLlm.path self) 4 w (snd (TgiLlm.run_endpoint_build self w)).
Proof.
  unfold TgiLlm.run_endpoint_build.
  destruct (set_container_spec self w) as (cd & H1 & _).
  rewrite snd_bind, H1.
  set (s1 := TgiLlm.set_container_definition cd self).
  destruct (set_model_extends s1 w) as [E2 P2].
  rewrite snd_bind. destruct (TgiLlm._set_model s1 w) as [[e|s2] w2] eqn:H2; simpl in E2.
  { now apply (extends_mono _ 1 4); [lia|]. }
  specialize (P2 s2 w2 eq_refl). simpl in P2.
  destruct (set_config_extends s2 w2) as [E3 P3]. rewrite P2 in E3.
  rewrite snd_bind. destruct (TgiLlm._set_config s2 w2) as [[e|s3] w3] eqn:H3; simpl in E3.
  { apply (extends_mono _ 2 4); [lia|]. now apply (extends_trans _ 1 1 w w2 w3). }
  specialize (P3 s3 w3 eq_refl). rewrite P2 in P3.
  destruct (set_endpoint_extends s3 w3) as [E4 P4]. rewrite P3 in E4.
  rewrite snd_bind. destruct (TgiLlm._set_endpoint s3 w3) as [[e|s4] w4] eqn:H4; simpl in E4.
  { apply (extends_mono _ 3 4); [lia|].
    apply (extends_trans _ 2 1 w w3 w4); [|exact E4].
    now apply (extends_trans _ 1 1 w w2 w3). }
  specialize (P4 s4 w4 eq_refl). rewrite P3 in P4.
  assert (E5 := output_extends s4 w4).
  apply (extends_path_eq _ _ _ _ _ P4) in E5.
  apply (extends_trans _ 3 1 w w4 _); [|exact E5].
  apply (extends_trans _ 2 1 w w3 w4); [|exact E4].
  now apply (extends_trans _ 1 1 w w2 w3).
Qed.

Lemma set_model_used (self : TgiLlm.t) (w : World) (cd : Cdk.ContainerDefinition) :
  TgiLlm.container_definition self = Some cd ->
  TgiLlm.path self ++ ["TgiModel"] ∈ paths w ->
  TgiLlm._set_model self w
  = (inl (ConstructError (TgiLlm.path self ++ ["TgiModel"])), w).
Proof.
  intros Hcd Hused. unfold TgiLlm._set_model, Model_new. rewrite Hcd. simpl.
  rewrite bind_ret_l. unfold bind. now rewrite (register_used _ _ _ _ Hused).
Qed.

Lemma set_endpoint_used (self : TgiLlm.t) (w : World) (c : Cdk.EndpointConfig) :
  TgiLlm.endpoint_config self = Some c ->
  TgiLlm.path self ++ ["TgiEndpoint"] ∈ paths w ->
  TgiLlm._set_endpoint self w
  = (inl (ConstructError (TgiLlm.path self ++ ["TgiEndpoint"])), w).
Proof.
  intros Hc Hused. unfold TgiLlm._set_endpoint, Endpoint_new. rewrite Hc. simpl.
  rewrite bind_ret_l. unfold bind. now rewrite (register_used _ _ _ _ Hused).
Qed.

(** When a build step raises, and what it leaves. [_set_container] never
    raises. Each of the other three raises in exactly two cases, and in both
    the world is the one it found: [AttributeError] on the attribute the step
    before it assigns, when that attribute is not there, and otherwise
    [ConstructError] on its own identifier, when that identifier is taken
    under the instance. In the remaining case it returns, and the tree has
    gained its construct. *)
Lemma failed_step_changes_nothing (self : TgiLlm.t) (w : World) :
  (exists s, TgiLlm._set_container self w = (inr s, w))
  /\ ((TgiLlm.container_definition self = None
       /\ TgiLlm._set_model self w
          = (inl (AttributeError "TgiLlm" "container_definition"), w))
      \/ (is_Some (TgiLlm.container_definition self)
          /\ (TgiLlm.path self ++ ["TgiModel"] ∈ paths w)
          /\ TgiLlm._set_model self w
             = (inl (ConstructError (TgiLlm.path self ++ ["TgiModel"])), w))
      \/ (is_Some (TgiLlm.container_definition self)
          /\ (TgiLlm.path self ++ ["TgiModel"] ∉ paths w)
          /\ exists m,
              TgiLlm._set_model self w
              = (inr (TgiLlm.set_model m self),
                 add_node (TgiLlm.path self ++ ["TgiModel"]) (Cdk.NModel m) w)))
  /\ ((TgiLlm.model self = None
       /\ TgiLlm._set_config self w = (inl (AttributeError "TgiLlm" "model"), w))
      \/ (is_Some (TgiLlm.model self)
          /\ (TgiLlm.path self ++ ["TgiEndpointConfig"] ∈ paths w)
          /\ TgiLlm._set_config self w
             = (inl (ConstructError (TgiLlm.path self ++ ["TgiEndpointConfig"])), w))
      \/ (is_Some (TgiLlm.model self)
          /\ (TgiLlm.path self ++ ["TgiEndpointConfig"] ∉ paths w)
          /\ exists c,
              TgiLlm._set_config self w
              = (inr (TgiLlm.set_endpoint_config c self),
                 add_node (TgiLlm.path self ++ ["TgiEndpointConfig"])
                   (Cdk.NEndpointConfig c) w)))
  /\ ((TgiLlm.endpoint_config self = None
       /\ TgiLlm._set_endpoint self w
          = (inl (AttributeError "TgiLlm" "endpoint_config"), w))
      \/ (is_Some (TgiLlm.endpoint_config self)
          /\ (TgiLlm.path self ++ ["TgiEndpoint"] ∈ paths w)
          /\ TgiLlm._set_endpoint self w
             = (inl (ConstructError (TgiLlm.path self ++ ["TgiEndpoint"])), w))
      \/ (is_Some (TgiLlm.endpoint_config self)
          /\ (TgiLlm.path self ++ ["TgiEndpoint"] ∉ paths w)
          /\ exists e,
              TgiLlm._set_endpoint self w
              = (inr (TgiLlm.set_endpoint e self),
                 add_node (TgiLlm.path self ++ ["TgiEndpoint"]) (Cdk.NEndpoint e) w))).
Proof.
  split; [|split; [|split]].
  - destruct (set_container_spec self w) as (cd & Hrun & _). eauto.
  - destruct (TgiLlm.container_definition self) as [cd|] eqn:Hcd.
    + right.
      destruct (decide (TgiLlm.path self ++ ["TgiModel"] ∈ paths w)) as [Hin|Hout].
      * left. split; [eauto|]. split; [exact Hin|]. now apply (set_model_used self w cd).
      * right. split; [eauto|]. split; [exact Hout|]. eexists.
        apply (set_model_spec self w cd Hcd Hout).
    + left. split; [reflexivity|]. now apply set_model_needs_container.
  - destruct (TgiLlm.model self) as [m|] eqn:Hm.
    + right.
      destruct (decide (TgiLlm.path self ++ ["TgiEndpointConfig"] ∈ paths w))
        as [Hin|Hout].
      * left. split; [eauto|]. split; [exact Hin|].
        unfold TgiLlm._set_config, EndpointConfig_new. rewrite Hm. simpl.
        rewrite bind_ret_l. unfold bind. now rewrite (register_used _ _ _ _ Hin).
      * right. split; [eauto|]. split; [exact Hout|].
        destruct (set_config_spec self w m Hm Hout) as (c & v & Hrun & _). eauto.
    + left. split; [reflexivity|]. now apply set_config_needs_model.
  - destruct (TgiLlm.endpoint_config self) as [c|] eqn:Hc.
    + right.
      destruct (decide (TgiLlm.path self ++ ["TgiEndpoint"] ∈ paths w)) as [Hin|Hout].
      * left. split; [eauto|]. split; [exact Hin|].
        now apply (set_endpoint_used self w c).
      * right. split; [eauto|]. split; [exact Hout|]. eexists.
        apply (set_endpoint_spec self w c Hc Hout).
    + left. split; [reflexivity|]. now apply set_endpoint_needs_config.
Qed.

(** [_set_container] looks at the configuration only. The container it
    attaches is made of the image of [repo_name] and [tag], the validated
    environment variables, and the model data of a non-empty
    [s3_model_path]; it replaces whatever container the instance held; every
    instance with the same configuration gets the same container, in any
    world; and running the step again on its own result changes nothing. The
    world is never touched. *)
Lemma set_container_idempotent (self : TgiLlm.t) (w : World) :
  exists cd,
    TgiLlm._set_container self w = (inr (TgiLlm.set_container_definition cd self), w)
    /\ TgiLlm.container_definition (TgiLlm.set_container_definition cd self) = Some cd
    /\ cd = {| Cdk.image :=
                 sagemaker.from_dlc (repo_name (TgiLlm.props self))
                                    (tag (TgiLlm.props self));
               Cdk.environment := environment_vars (TgiLlm.props self);
               Cdk.model_data :=
                 match s3_model_path (TgiLlm.props self) with
                 | Some p =>
                     if String.eqb p "" then None else Some (sagemaker.from_asset p)
                 | None => None
                 end |}
    /\ (forall (other : TgiLlm.t) (w2 : World),
          TgiLlm.props other = TgiLlm.props self ->
          TgiLlm._set_container other w2
          = (inr (TgiLlm.set_container_definition cd other), w2))
    /\ TgiLlm._set_container (TgiLlm.set_container_definition cd self) w
       = (inr (TgiLlm.set_container_definition cd self), w).
Proof.
  assert (Hall : forall (other : TgiLlm.t) (w2 : World),
             TgiLlm.props other = TgiLlm.props self ->
             TgiLlm._set_container other w2
             = (inr (TgiLlm.set_container_definition
                       {| Cdk.image :=
                            sagemaker.from_dlc (repo_name (TgiLlm.props self))
                                               (tag (TgiLlm.props self));
                          Cdk.environment := environment_vars (TgiLlm.props self);
                          Cdk.model_data :=
                            match s3_model_path (TgiLlm.props self) with
                            | Some p =>
                                if String.eqb p "" then None
                                else Some (sagemaker.from_asset p)
                            | None => None
                            end |} other), w2)).
  { intros other w2 Hp. unfold TgiLlm._set_container. simpl. rewrite Hp.
    destruct (s3_model_path (TgiLlm.props self)) as [p|];
      [destruct (String.eqb p "")|]; reflexivity. }
  eexists. split; [apply (Hall self w eq_refl)|].
  split; [reflexivity|]. split; [reflexivity|]. split; [exact Hall|].
  rewrite Hall by reflexivity. reflexivity.
Qed.

(** [run_endpoint_build] never uses the random source, never removes or
    reorders what is in the tree, and adds at most four constructs, each a
    direct child of the instance. This holds when it raises as well. *)
Lemma run_endpoint_build_footprint (self : TgiLlm.t) (w : World) :
  let w' := snd (TgiLlm.run_endpoint_build self w) in
  entropy w' = entropy w
  /\ rand_pos w' = rand_pos w
  /\ exists added,
      tree w' = tree w ++ added
      /\ (length added <= 4)%nat
      /\ forall x, In x added -> exists id, fst x = TgiLlm.path self ++ [id].
Proof.
  destruct (run_endpoint_build_extends self w) as (He & Hr & (a & Ht & Hl & Hf) & _).
  simpl. split; [exact He|]. split; [exact Hr|].
  exists a. split; [exact Ht|]. split; [exact Hl|].
  intros x Hx. rewrite Forall_forall in Hf. now apply Hf, list_elem_of_In.
Qed.

(** If no two constructs of the tree share a path, that is still so after
    the constructor of [TgiLlm] and after [run_endpoint_build], whether they
    return or raise. *)
Lemma build_keeps_paths_unique (py_str : attr -> string) (scope : list string)
    (cid : string) (props : Props) (self : TgiLlm.t) (w : World) :
  NoDup (paths w) ->
  NoDup (paths (snd (TgiLlm.__init__ py_str scope cid props w)))
  /\ NoDup (paths (snd (TgiLlm.run_endpoint_build self w))).
Proof.
  intros Hnd. split.
  - destruct (decide (scope ++ [cid] ∈ paths w)) as [Hused|Hfresh].
    + unfold TgiLlm.__init__.
      now rewrite (bind_raises _ _ _ _ _ (register_used _ _ _ _ Hused)).
    + rewrite (init_raises py_str scope cid props w Hfresh). simpl.
      rewrite paths_advance.
      now apply (extends_add scope cid Cdk.NConstruct w Hfresh).
  - now apply (run_endpoint_build_extends self w).
Qed.

Lemma build_keeps_paths_unique_witness :
  NoDup (paths world0)
  /\ NoDup (paths (snd (TgiLlm.__init__ (fun _ => "llm") ["Stack"] "Llm"
                          props_minimal world0)))
  /\ NoDup (paths (snd (TgiLlm.run_endpoint_build (instance_of props_minimal) world0))).
Proof.
  split; [apply NoDup_nil_2|].
  apply (build_keeps_paths_unique (fun _ => "llm") ["Stack"] "Llm" props_minimal
           (instance_of props_minimal) world0).
  apply NoDup_nil_2.
Defined.

(** ** The graph a successful run wires *)

(** After a run on an instance whose four identifiers are free, the four
    attributes are set and refer to each other: the model holds exactly the
    container the instance holds and bears the instance's model name, the
    single variant of the endpoint configuration names that model, the
    endpoint holds that endpoint configuration and bears the instance's
    endpoint name, and the output in the tree carries that endpoint name. *)
Lemma run_endpoint_build_wiring (self : TgiLlm.t) (w : World) :
  TgiLlm.path self ++ ["TgiModel"] ∉ paths w ->
  TgiLlm.path self ++ ["TgiEndpointConfig"] ∉ paths w ->
  TgiLlm.path self ++ ["TgiEndpoint"] ∉ paths w ->
  TgiLlm.path self ++ ["EndpointName"] ∉ paths w ->
  exists self' w' cd m c e v,
    TgiLlm.run_endpoint_build self w = (inr self', w')
    /\ TgiLlm.container_definition self' = Some cd
    /\ TgiLlm.model self' = Some m
    /\ TgiLlm.endpoint_config self' = Some c
    /\ TgiLlm.endpoint self' = Some e
    /\ Cdk.containers m = [cd]
    /\ Cdk.model_name m = TgiLlm.model_name self
    /\ Cdk.endpoint_config_name c = TgiLlm.endpoint_config_name self
    /\ Cdk.instance_production_variants c = [v]
    /\ v !! "modelName" = Some (PStr (Cdk.model_name m))
    /\ Cdk.endpoint_config e = c
    /\ Cdk.endpoint_name e = TgiLlm.endpoint_name self
    /\ In (TgiLlm.path self ++ ["EndpointName"], Cdk.NOutput (Cdk.endpoint_name e))
          (tree w').
Proof.
  intros Hm Hc He Ho.
  destruct (set_container_spec self w) as (cd & H1 & _).
  set (s1 := TgiLlm.set_container_definition cd self) in *.
  pose proof (set_model_spec s1 w cd eq_refl Hm) as H2. simpl in H2.
  set (m := {| Cdk.model_name := TgiLlm.model_name self; Cdk.containers := [cd] |}) in *.
  set (s2 := TgiLlm.set_model m s1) in *.
  set (w2 := add_node (TgiLlm.path self ++ ["TgiModel"]) (Cdk.NModel m) w) in *.
  assert (Hc2 : TgiLlm.path s2 ++ ["TgiEndpointConfig"] ∉ paths w2)
    by (apply fresh_add_node; [discriminate|exact Hc]).
  destruct (set_config_spec s2 w2 m eq_refl Hc2)
    as (c & v & H3 & Hname & Hvs & Hmn & _).
  simpl in H3.
  set (s3 := TgiLlm.set_endpoint_config c s2) in *.
  set (w3 := add_node (TgiLlm.path self ++ ["TgiEndpointConfig"])
               (Cdk.NEndpointConfig c) w2) in *.
  assert (He3 : TgiLlm.path s3 ++ ["TgiEndpoint"] ∉ paths w3)
    by (do 2 (apply fresh_add_node; [discriminate|]); exact He).
  pose proof (set_endpoint_spec s3 w3 c eq_refl He3) as H4. simpl in H4.
  set (e := {| Cdk.endpoint_name := TgiLlm.endpoint_name self;
               Cdk.endpoint_config := c |}) in *.
  set (s4 := TgiLlm.set_endpoint e s3) in *.
  set (w4 := add_node (TgiLlm.path self ++ ["TgiEndpoint"]) (Cdk.NEndpoint e) w3) in *.
  assert (Ho4 : TgiLlm.path s4 ++ ["EndpointName"] ∉ paths w4)
    by (do 3 (apply fresh_add_node; [discriminate|]); exact Ho).
  exists s4,
    (add_node (TgiLlm.path self ++ ["EndpointName"])
       (Cdk.NOutput (TgiLlm.endpoint_name self)) w4), cd, m, c, e, v.
  split.
  { unfold TgiLlm.run_endpoint_build.
    rewrite (bind_returns _ _ _ _ _ H1), (bind_returns _ _ _ _ _ H2),
      (bind_returns _ _ _ _ _ H3), (bind_returns _ _ _ _ _ H4).
    simpl. rewrite bind_ret_l. unfold CfnOutput, bind.
    now rewrite (register_fresh _ _ _ _ Ho4). }
  do 11 (split; [first [reflexivity|assumption]|]).
  simpl. apply in_or_app. right. now left.
Qed.

Lemma run_endpoint_build_wiring_witness :
  (TgiLlm.path (instance_of props_minimal) ++ ["TgiModel"] ∉ paths world0)
  /\ (TgiLlm.path (instance_of props_minimal) ++ ["TgiEndpointConfig"] ∉ paths world0)
  /\ (TgiLlm.path (instance_of props_minimal) ++ ["TgiEndpoint"] ∉ paths world0)
  /\ (TgiLlm.path (instance_of props_minimal) ++ ["EndpointName"] ∉ paths world0)
  /\ exists self' w' cd m c e v,
      TgiLlm.run_endpoint_build (instance_of props_minimal) world0 = (inr self', w')
      /\ TgiLlm.container_definition self' = Some cd
      /\ TgiLlm.model self' = Some m
      /\ TgiLlm.endpoint_config self' = Some c
      /\ TgiLlm.endpoint self' = Some e
      /\ Cdk.containers m = [cd]
      /\ Cdk.model_name m = TgiLlm.model_name (instance_of props_minimal)
      /\ Cdk.endpoint_config_name c
         = TgiLlm.endpoint_config_name (instance_of props_minimal)
      /\ Cdk.instance_production_variants c = [v]
      /\ v !! "modelName" = Some (PStr (Cdk.model_name m))
      /\ Cdk.endpoint_config e = c
      /\ Cdk.endpoint_name e = TgiLlm.endpoint_name (instance_of props_minimal)
      /\ In (TgiLlm.path (instance_of props_minimal) ++ ["EndpointName"],
             Cdk.NOutput (Cdk.endpoint_name e)) (tree w').
Proof.
  do 4 (split; [simpl; apply not_elem_of_nil|]).
  apply (run_endpoint_build_wiring (instance_of props_minimal) world0);
    simpl; apply not_elem_of_nil.
Defined.

(** [run_endpoint_build] cannot be run twice on one instance: after a run
    that succeeded, a second one raises on the identifier [TgiModel], which
    the first run took, and adds nothing. *)
Lemma run_endpoint_build_twice_raises (self : TgiLlm.t) (w : World) :
  TgiLlm.path self ++ ["TgiModel"] ∉ paths w ->
  TgiLlm.path self ++ ["TgiEndpointConfig"] ∉ paths w ->
  TgiLlm.path self ++ ["TgiEndpoint"] ∉ paths w ->
  TgiLlm.path self ++ ["EndpointName"] ∉ paths w ->
  exists self' w',
    TgiLlm.run_endpoint_build self w = (inr self', w')
    /\ TgiLlm.run_endpoint_build self' w'
       = (inl (ConstructError (TgiLlm.path self ++ ["TgiModel"])), w').
Proof.
  intros Hm Hc He Ho.
  destruct (run_endpoint_build_spec self w Hm Hc He Ho)
    as (cd & c & self' & w' & Hrun & Hself & _ & Htree & _).
  exists self', w'. split; [exact Hrun|].
  assert (Hpath : TgiLlm.path self' = TgiLlm.path self) by now subst self'.
  assert (Hused : TgiLlm.path self' ++ ["TgiModel"] ∈ paths w').
  { rewrite Hpath. unfold paths. rewrite Htree, map_app. simpl.
    rewrite elem_of_app. right. apply list_elem_of_here. }
  destruct (set_container_spec self' w') as (cd' & H1 & _).
  unfold TgiLlm.run_endpoint_build.
  rewrite (bind_returns _ _ _ _ _ H1).
  rewrite (bind_raises _ _ _ _ _
             (set_model_used (TgiLlm.set_container_definition cd' self') w' cd'
                eq_refl Hused)).
  simpl. now rewrite Hpath.
Qed.

Lemma run_endpoint_build_twice_raises_witness :
  (TgiLlm.path (instance_of props_minimal) ++ ["TgiModel"] ∉ paths world0)
  /\ (TgiLlm.path (instance_of props_minimal) ++ ["TgiEndpointConfig"] ∉ paths world0)
  /\ (TgiLlm.path (instance_of props_minimal) ++ ["TgiEndpoint"] ∉ paths world0)
  /\ (TgiLlm.path (instance_of props_minimal) ++ ["EndpointName"] ∉ paths world0)
  /\ exists self' w',
      TgiLlm.run_endpoint_build (instance_of props_minimal) world0 = (inr self', w')
      /\ TgiLlm.run_endpoint_build self' w'
         = (inl (ConstructError
                   (TgiLlm.path (instance_of props_minimal) ++ ["TgiModel"])), w').
Proof.
  do 4 (split; [simpl; apply not_elem_of_nil|]).
  apply (run_endpoint_build_twice_raises (instance_of props_minimal) world0);
    simpl; apply not_elem_of_nil.
Defined.

(** A run that raises half-way leaves what it had built: when the
    identifier [TgiEndpoint] is taken and the two before it are free, the run
    raises on it, and the tree has gained the model and the endpoint
    configuration, in that order, and no endpoint or output. *)
Lemma run_endpoint_build_partial (self : TgiLlm.t) (w : World) :
  TgiLlm.path self ++ ["TgiModel"] ∉ paths w ->
  TgiLlm.path self ++ ["TgiEndpointConfig"] ∉ paths w ->
  TgiLlm.path self ++ ["TgiEndpoint"] ∈ paths w ->
  exists cd c w',
    TgiLlm.run_endpoint_build self w
    = (inl (ConstructError (TgiLlm.path self ++ ["TgiEndpoint"])), w')
    /\ tree w'
       = tree w
         ++ [(TgiLlm.path self ++ ["TgiModel"],
              Cdk.NModel {| Cdk.model_name := TgiLlm.model_name self;
                            Cdk.containers := [cd] |});
             (TgiLlm.path self ++ ["TgiEndpointConfig"], Cdk.NEndpointConfig c)].
Proof.
  intros Hm Hc He.
  destruct (set_container_spec self w) as (cd & H1 & _).
  set (s1 := TgiLlm.set_container_definition cd self) in *.
  pose proof (set_model_spec s1 w cd eq_refl Hm) as H2. simpl in H2.
  set (m := {| Cdk.model_name := TgiLlm.model_name self; Cdk.containers := [cd] |}) in *.
  set (s2 := TgiLlm.set_model m s1) in *.
  set (w2 := add_node (TgiLlm.path self ++ ["TgiModel"]) (Cdk.NModel m) w) in *.
  assert (Hc2 : TgiLlm.path s2 ++ ["TgiEndpointConfig"] ∉ paths w2)
    by (apply fresh_add_node; [discriminate|exact Hc]).
  destruct (set_config_spec s2 w2 m eq_refl Hc2) as (c & v & H3 & _).
  simpl in H3.
  set (s3 := TgiLlm.set_endpoint_config c s2) in *.
  set (w3 := add_node (TgiLlm.path self ++ ["TgiEndpointConfig"])
               (Cdk.NEndpointConfig c) w2) in *.
  assert (He3 : TgiLlm.path s3 ++ ["TgiEndpoint"] ∈ paths w3)
    by (do 2 apply used_add_node; exact He).
  exists cd, c, w3. split.
  - unfold TgiLlm.run_endpoint_build.
    rewrite (bind_returns _ _ _ _ _ H1), (bind_returns _ _ _ _ _ H2),
      (bind_returns _ _ _ _ _ H3).
    now rewrite (bind_raises _ _ _ _ _ (set_endpoint_used s3 w3 c eq_refl He3)).
  - simpl. now rewrite <- app_assoc.
Qed.

Lemma run_endpoint_build_partial_witness :
  (TgiLlm.path (instance_of props_minimal) ++ ["TgiModel"]
   ∉ paths world_endpoint_taken)
  /\ (TgiLlm.path (instance_of props_minimal) ++ ["TgiEndpointConfig"]
      ∉ paths world_endpoint_taken)
  /\ (TgiLlm.path (instance_of props_minimal) ++ ["TgiEndpoint"]
      ∈ paths world_endpoint_taken)
  /\ exists cd c w',
      TgiLlm.run_endpoint_build (instance_of props_minimal) world_endpoint_taken
      = (inl (ConstructError
                (TgiLlm.path (instance_of props_minimal) ++ ["TgiEndpoint"])), w')
      /\ tree w'
         = tree world_endpoint_taken
           ++ [(TgiLlm.path (instance_of props_minimal) ++ ["TgiModel"],
                Cdk.NModel
                  {| Cdk.model_name := TgiLlm.model_name (instance_of props_minimal);
                     Cdk.containers := [cd] |});
               (TgiLlm.path (instance_of props_minimal) ++ ["TgiEndpointConfig"],
                Cdk.NEndpointConfig c)].
Proof.
  assert (H1 : TgiLlm.path (instance_of props_minimal) ++ ["TgiModel"]
               ∉ paths world_endpoint_taken)
    by (simpl; intros H; apply list_elem_of_singleton in H; discriminate).
  assert (H2 : TgiLlm.path (instance_of props_minimal) ++ ["TgiEndpointConfig"]
               ∉ paths world_endpoint_taken)
    by (simpl; intros H; apply list_elem_of_singleton in H; discriminate).
  assert (H3 : TgiLlm.path (instance_of props_minimal) ++ ["TgiEndpoint"]
               ∈ paths world_endpoint_taken)
    by (simpl; apply list_elem_of_here).
  split; [exact H1|]. split; [exact H2|]. split; [exact H3|].
  apply (run_endpoint_build_partial (instance_of props_minimal) world_endpoint_taken
           H1 H2 H3).
Defined.
